(** * Orphaned-scan audit and adoption: a shallow embedding in Rocq

    Embedding of [orphaned_sessions.py] (the audit: windowed enumeration of
    the archive by [find], per-instance XNAT lookups, CSV and e-mail report)
    and [adopt_orphans.py] (move a directory into the XNAT inbox and trigger
    an inbox import).

    Strings are ASCII [String.string]s.  The filesystem is a list of entries
    (path, node) in directory-listing order; a path is its list of
    components.  The HTTP endpoints, the mailer and the CSV writer are
    parameters of the world. *)

From Stdlib Require Import String Ascii List ZArith Bool Lia.
Import ListNotations.
Open Scope string_scope.
Set Warnings "-register-all".
Open Scope list_scope.
Open Scope string_scope.

(** ** Python string helpers *)

Definition is_slash (c : ascii) : bool := Ascii.eqb c "/"%char.
Definition is_nl (c : ascii) : bool := Ascii.eqb c "010"%char.
Definition is_cr (c : ascii) : bool := Ascii.eqb c "013"%char.

(** [str.isspace] on ASCII characters: \t \n \v \f \r, \x1c-\x1f, space. *)
Definition is_ws (c : ascii) : bool :=
  let n := nat_of_ascii c in
  ((9 <=? n) && (n <=? 13))%nat || ((28 <=? n) && (n <=? 32))%nat.

(** [s.lstrip(chars)] and [s.rstrip(chars)] for a character class [f]. *)
Fixpoint lstrip_by (f : ascii -> bool) (s : string) : string :=
  match s with
  | EmptyString => EmptyString
  | String c r => if f c then lstrip_by f r else s
  end.

Fixpoint rstrip_by (f : ascii -> bool) (s : string) : string :=
  match s with
  | EmptyString => EmptyString
  | String c r =>
      let r' := rstrip_by f r in
      match r' with
      | EmptyString => if f c then EmptyString else String c EmptyString
      | _ => String c r'
      end
  end.

(** [s.strip()] *)
Definition py_strip (s : string) : string := rstrip_by is_ws (lstrip_by is_ws s).

(** [s.split(sep)] for a one-character separator. *)
Fixpoint split_by (f : ascii -> bool) (s : string) : list string :=
  match s with
  | EmptyString => [EmptyString]
  | String c r =>
      let rest := split_by f r in
      if f c then EmptyString :: rest
      else match rest with
           | [] => [String c EmptyString]
           | h :: t => String c h :: t
           end
  end.

(** The last separator of [s]: [Some (before, after)], as [s.rfind('/')]. *)
Fixpoint rsplit_slash (s : string) : option (string * string) :=
  match s with
  | EmptyString => None
  | String c r =>
      match rsplit_slash r with
      | Some (a, b) => Some (String c a, b)
      | None => if is_slash c then Some (EmptyString, r) else None
      end
  end.

Fixpoint all_by (f : ascii -> bool) (s : string) : bool :=
  match s with
  | EmptyString => true
  | String c r => f c && all_by f r
  end.

(** [posixpath.basename] *)
Definition basename (p : string) : string :=
  match rsplit_slash p with
  | Some (_, b) => b
  | None => p
  end.

(** [posixpath.dirname]: the head up to the last '/', with its trailing
    slashes removed unless it consists of slashes only. *)
Definition dirname (p : string) : string :=
  match rsplit_slash p with
  | None => EmptyString
  | Some (a, _) =>
      let head := a ++ "/" in
      if all_by is_slash head then head else rstrip_by is_slash head
  end.

(** A path string as find and the kernel resolve it: its non-empty
    components. *)
Definition parse_path (s : string) : list string :=
  filter (fun c => negb (String.eqb c "")) (split_by is_slash s).

Definition starts_with_dot (s : string) : bool :=
  match s with
  | String c _ => Ascii.eqb c "."%char
  | EmptyString => false
  end.

(** Insertion sort by byte order: the order of the shell's glob expansion
    (C collation). *)
Fixpoint insert_name (x : string) (l : list string) : list string :=
  match l with
  | [] => [x]
  | y :: t => if String.leb x y then x :: l else y :: insert_name x t
  end.

Definition sort_names (l : list string) : list string :=
  fold_right insert_name [] l.

(** ** Filesystem *)

Definition path := list string.

(** A directory entry; both kinds carry their modification time. *)
Inductive node := Dir (mtime : Z) | File (mtime : Z).

Definition node_mtime (n : node) : Z := match n with Dir m | File m => m end.
Definition is_dir (n : node) : bool := match n with Dir _ => true | File _ => false end.

(** The filesystem: entries in directory-listing (readdir) order. *)
Definition fs := list (path * node).

Definition path_eqb (p q : path) : bool :=
  if list_eq_dec string_dec p q then true else false.

Fixpoint fs_lookup (t : fs) (p : path) : option node :=
  match t with
  | [] => None
  | (q, n) :: r => if path_eqb p q then Some n else fs_lookup r p
  end.

(** [q] with the prefix [p] removed, when [p] is a prefix of [q]. *)
Fixpoint strip_prefix (p q : path) : option path :=
  match p, q with
  | [], _ => Some q
  | x :: p', y :: q' => if string_dec x y then strip_prefix p' q' else None
  | _ :: _, [] => None
  end.

Definition child_name (p q : path) : option string :=
  match strip_prefix p q with
  | Some [c] => Some c
  | _ => None
  end.

(** The entries directly inside directory [p], in listing order. *)
Fixpoint fs_children (t : fs) (p : path) : list (string * node) :=
  match t with
  | [] => []
  | (q, n) :: r =>
      match child_name p q with
      | Some c => (c, n) :: fs_children r p
      | None => fs_children r p
      end
  end.

(** The string form of a path, as [os.path.join] of its components under
    the root. *)
Definition path_str (p : path) : string :=
  match p with
  | [] => "/"
  | _ => String.concat "" (map (fun c => "/" ++ c) p)
  end.

(** ** Values, records, events and exceptions *)

(** JSON as [response.json()] returns it (numbers as integers). *)
Inductive json :=
| JNull
| JBool (b : bool)
| JNum (z : Z)
| JStr (s : string)
| JArr (l : list json)
| JObj (l : list (string * json)).

(** Python truthiness of a parsed JSON value. *)
Definition json_truthy (j : json) : bool :=
  match j with
  | JNull => false
  | JBool b => b
  | JNum z => negb (Z.eqb z 0)
  | JStr s => negb (String.eqb s "")
  | JArr l => match l with [] => false | _ => true end
  | JObj l => match l with [] => false | _ => true end
  end.

(** [bool(x)] for the [JSON data or None] returned by a lookup. *)
Definition py_bool (m : option json) : bool :=
  match m with Some j => json_truthy j | None => false end.

(** Values stored in the dicts of [session_data]. *)
Inductive pyval := PStr (s : string) | PBool (b : bool) | PTime (t : Z) | PNone.

(** A Python dict with literal keys, in insertion order. *)
Definition row := list (string * pyval).

Fixpoint assoc {A : Type} (k : string) (l : list (string * A)) : option A :=
  match l with
  | [] => None
  | (k', v) :: r => if String.eqb k k' then Some v else assoc k r
  end.

(** The messages printed or mailed, by their f-string parameters. *)
Inductive msg :=
| MsgAuthError
| MsgLastModError (p : string)
| MsgHttpError (url : string) (status : Z)
| MsgQueryError (url : string)
| MsgNoScans (start_date end_date : Z)
| MsgSavedCsv
| MsgCsvError
| MsgOrphans (num_orphans total : nat)
| MsgNoOrphans (total : nat)
| MsgEmailed
| MsgEmailFailed
| MsgCredError
| MsgMoved (src dst : string)
| MsgMoveError
| MsgImportOk (text : string)
| MsgImportFailed (status : Z) (text : string)
| MsgApiError (e : string).

(** Observable effects, in the order the program performs them. *)
Inductive event :=
| EvPrint (m : msg)
| EvFind (start_points : list string) (start_date end_date : Z)
| EvGet (url : string)
| EvCsv (file : string) (rows : list row)
| EvMail (start_date end_date : Z) (m : msg) (attachment : option string)
| EvMakedirs (p : path)
| EvMoved (src dst : path)
| EvPost (url : string).

Inductive exn :=
| FileNotFoundError
| ValueError
| KeyError
| ConfigParseError
| InterpolationError
| CalledProcessError
| IndexError
| HTTPError (status : Z)
| RequestError (e : string)
| JSONDecodeError
| FileExistsError
| ShutilError
| OSError (e : string).

(** ** The program monad: filesystem state, an effect log, exceptions *)

Definition PyM (A : Type) : Type := fs -> list event * fs * (exn + A).

Definition ret {A} (a : A) : PyM A := fun t => ([], t, inr a).

Definition bind {A B} (m : PyM A) (k : A -> PyM B) : PyM B :=
  fun t =>
    match m t with
    | (w, t', inl e) => (w, t', inl e)
    | (w, t', inr a) => let '(w2, t2, r) := k a t' in ((w ++ w2)%list, t2, r)
    end.

Definition raise {A} (e : exn) : PyM A := fun t => ([], t, inl e).

(** [try: m except: h] *)
Definition try_with {A} (m : PyM A) (h : exn -> PyM A) : PyM A :=
  fun t =>
    match m t with
    | (w, t', inl e) => let '(w2, t2, r) := h e t' in ((w ++ w2)%list, t2, r)
    | (w, t', inr a) => (w, t', inr a)
    end.

Definition emit (ev : event) : PyM unit := fun t => ([ev], t, inr tt).
Definition print (m : msg) : PyM unit := emit (EvPrint m).
Definition get_fs : PyM fs := fun t => ([], t, inr t).
Definition put_fs (t' : fs) : PyM unit := fun _ => ([], t', inr tt).

Notation "x <- m ;; k" := (bind m (fun x => k))
  (at level 61, m at next level, right associativity).
Notation "m ;;; k" := (bind m (fun _ => k))
  (at level 61, right associativity).

Fixpoint mapM {A B} (f : A -> PyM B) (l : list A) : PyM (list B) :=
  match l with
  | [] => ret []
  | x :: r => y <- f x ;; ys <- mapM f r ;; ret (y :: ys)
  end.

(** ** Credentials: [configparser] *)

(** A value as [ConfigParser.get] returns it after interpolation, or an
    interpolation error (e.g. a lone '%'). *)
Inductive cfg_value := CVal (s : string) | CBadInterp.

(** The credentials file: missing, rejected by the parser (no section header,
    duplicate section, ...), or parsed into its [DEFAULT] entries and its
    sections; option names are lower-cased by the parser. *)
Inductive cfg_file :=
| CfgMissing
| CfgMalformed
| CfgParsed (defaults : list (string * cfg_value))
            (sections : list (string * list (string * cfg_value))).

(** Option lookup in a section, falling back to [DEFAULT]. *)
Definition section_get (defaults sec : list (string * cfg_value)) (key : string)
  : option cfg_value :=
  match assoc key sec with
  | Some v => Some v
  | None => assoc key defaults
  end.

(** orphaned_sessions.read_xnat_auth *)
Definition read_xnat_auth (cfg : cfg_file) : PyM (string * string) :=
  match cfg with
  | CfgMissing => raise FileNotFoundError
  | CfgMalformed => raise ConfigParseError
  | CfgParsed defaults sections =>
      match assoc "auth" sections with
      | None => raise ValueError
      | Some sec =>
          let get key :=
            match section_get defaults sec key with
            | None => raise ValueError       (* NoOptionError, re-raised *)
            | Some CBadInterp => raise InterpolationError
            | Some (CVal v) => ret v
            end in
          username <- get "username" ;;
          password <- get "password" ;;
          ret (username, password)
      end
  end.

(** adopt_orphans.get_credentials *)
Definition get_credentials (cfg : cfg_file) : PyM (string * string) :=
  match cfg with
  | CfgMissing => raise FileNotFoundError
  | CfgMalformed => raise ConfigParseError
  | CfgParsed defaults sections =>
      match assoc "auth" sections with
      | None => raise KeyError
      | Some sec =>
          let get key :=
            match section_get defaults sec key with
            | None => raise KeyError
            | Some CBadInterp => raise InterpolationError
            | Some (CVal v) => ret v
            end in
          username <- get "username" ;;
          password <- get "password" ;;
          ret (username, password)
      end
  end.

(** ** orphaned_sessions.py *)

Definition ARCHIVE_ROOT : path := ["data"; "xnat"; "archive"].
Definition XNAT_INSTANCES : list string := ["https://xnat2.bu.edu"; "https://xnat.bu.edu"].
Definition CSV_FILENAME : string := "orphaned_sessions.csv".

(** An HTTP GET as the [requests.Session] (with its auth) answers it:
    a status with a body that parses as JSON or not, or an exception
    (timeout, connection error, ...). *)
Inductive get_result := GetResp (status : Z) (body : option json) | GetExn (e : string).

Definition http_get (sess : string -> get_result) (url : string) : PyM (Z * option json) :=
  emit (EvGet url) ;;;
  match sess url with
  | GetExn e => raise (RequestError e)
  | GetResp st body => ret (st, body)
  end.

Definition raise_for_status (st : Z) : PyM unit :=
  if ((400 <=? st) && (st <? 600))%Z then raise (HTTPError st) else ret tt.

Definition response_json (body : option json) : PyM json :=
  match body with Some j => ret j | None => raise JSONDecodeError end.

Definition query_url (base_url project_id session_label : string) : string :=
  base_url ++ "/data/projects/" ++ project_id ++ "/experiments/" ++ session_label
  ++ "?format=json".

(** query_xnat_metadata *)
Definition query_xnat_metadata (sess : string -> get_result)
    (base_url project_id session_label : string) : PyM (option json) :=
  let url := query_url base_url project_id session_label in
  try_with
    (response <- http_get sess url ;;
     let '(st, body) := response in
     raise_for_status st ;;;
     j <- response_json body ;;
     ret (Some j))
    (fun e =>
       match e with
       | HTTPError st =>
           if (st =? 404)%Z then ret None
           else print (MsgHttpError url st) ;;; ret None
       | _ => print (MsgQueryError url) ;;; ret None
       end).

(** *** query_sessions: [find /data/xnat/archive/*/arc001 -mindepth 1
    -maxdepth 1 -type d -newermt START ! -newermt END] through the shell.
    The dates are modelled by the instants [-newermt] parses them to. *)

Definition GLOB_PATTERN : string := "/data/xnat/archive/*/arc001".

(** The shell's expansion of the glob: projects (directories whose name does
    not start with '.') that hold an [arc001] entry, sorted; the pattern
    itself when nothing matches. *)
Definition glob_projects (t : fs) : list string :=
  flat_map (fun '(q, n) =>
    match child_name ARCHIVE_ROOT q with
    | Some p =>
        if is_dir n && negb (starts_with_dot p)
           && match fs_lookup t (ARCHIVE_ROOT ++ [p; "arc001"])%list with
              | Some _ => true
              | None => false
              end
        then [p] else []
    | None => []
    end) t.

Definition start_point (p : string) : string := "/data/xnat/archive/" ++ p ++ "/arc001".

Definition glob_arc001 (t : fs) : list string :=
  match sort_names (glob_projects t) with
  | [] => [GLOB_PATTERN]
  | l => map start_point l
  end.

(** [-newermt d]: modified strictly after [d]. *)
Definition newermt (m d : Z) : bool := (d <? m)%Z.

Definition find_test (start_date end_date : Z) (n : node) : bool :=
  is_dir n && newermt (node_mtime n) start_date
  && negb (newermt (node_mtime n) end_date).

(** One starting point: the lines printed, and whether it existed.  The
    model has no permissions: every directory is readable, so a missing
    starting point is the only cause of a non-zero exit it represents. *)
Definition find_start (t : fs) (start_date end_date : Z) (sp : string)
  : list string * bool :=
  match fs_lookup t (parse_path sp) with
  | None => ([], false)
  | Some (File _) => ([], true)
  | Some (Dir _) =>
      (map (fun '(c, _) => sp ++ "/" ++ c)
           (filter (fun '(_, n) => find_test start_date end_date n)
                   (fs_children t (parse_path sp))), true)
  end.

(** All starting points: stdout lines, and exit status 0 or not. *)
Fixpoint find_run (t : fs) (start_date end_date : Z) (sps : list string)
  : list string * bool :=
  match sps with
  | [] => ([], true)
  | sp :: r =>
      let '(o1, ok1) := find_start t start_date end_date sp in
      let '(o2, ok2) := find_run t start_date end_date r in
      ((o1 ++ o2)%list, ok1 && ok2)
  end.

Definition NL : string := String "010"%char EmptyString.

Definition find_stdout (lines : list string) : string :=
  String.concat "" (map (fun l => l ++ NL) lines).

(** Decoding in text mode ([universal_newlines=True]): "\r\n" and a lone
    "\r" both become "\n".  The model keeps names as ASCII strings, so the
    decoding itself cannot fail here. *)
Fixpoint universal_newlines (s : string) : string :=
  match s with
  | EmptyString => EmptyString
  | String c r =>
      if is_cr c then
        match r with
        | String c' r' =>
            if is_nl c' then String "010" (universal_newlines r')
            else String "010" (universal_newlines r)
        | EmptyString => String "010" EmptyString
        end
      else String c (universal_newlines r)
  end.

(** query_sessions *)
Definition query_sessions (start_date end_date : Z) : PyM (list string) :=
  t <- get_fs ;;
  let sps := glob_arc001 t in
  emit (EvFind sps start_date end_date) ;;;
  let '(lines, ok) := find_run t start_date end_date sps in
  if negb ok then raise CalledProcessError   (* check_output *)
  else
    let result := universal_newlines (find_stdout lines) in
    let dirs := split_by is_nl (py_strip result) in
    ret (if list_eq_dec string_dec dirs [""] then [] else dirs).

(** get_last_modified *)
Definition get_last_modified (session_path : string) : PyM (option Z) :=
  t <- get_fs ;;
  match fs_lookup t (parse_path session_path) with
  | Some n => ret (Some (node_mtime n))
  | None => print (MsgLastModError session_path) ;;; ret None
  end.

(** [l[i]] *)
Definition py_index {A} (l : list A) (i : nat) : PyM A :=
  match nth_error l i with Some x => ret x | None => raise IndexError end.

Definition session_row (d : string) (sess : string -> get_result) : PyM row :=
  let project := basename (dirname (dirname d)) in
  let session := basename d in
  last_modified <- get_last_modified d ;;
  metadata_from_instances <-
    mapM (fun base_url => query_xnat_metadata sess base_url project session)
         XNAT_INSTANCES ;;
  m0 <- py_index metadata_from_instances 0 ;;
  m1 <- py_index metadata_from_instances 1 ;;
  ret [("project", PStr project);
       ("session", PStr session);
       ("path", PStr d);
       ("last_modified", match last_modified with Some t => PTime t | None => PNone end);
       ("metadata_xnat2", PBool (py_bool m0));
       ("metadata_xnat", PBool (py_bool m1))].

(** find_sessions_and_metadata; [sess] is the authenticated
    [requests.Session]. *)
Definition find_sessions_and_metadata (sess : string -> get_result)
    (start_date end_date : Z) : PyM (list row) :=
  dirs <- query_sessions start_date end_date ;;
  mapM (fun d => session_row d sess) dirs.

(** [(df['metadata_xnat2'] == False).sum()] *)
Definition is_false_cell (v : option pyval) : bool :=
  match v with Some (PBool false) => true | _ => false end.

Definition num_orphans (data : list row) : nat :=
  length (filter (fun r => is_false_cell (assoc "metadata_xnat2" r)) data).

(** The world of one audit run: the HTTP answers for given credentials,
    the credentials file, whether the CSV write and [mailx] succeed, and
    today's date (as the instant of its midnight). *)
Record audit_world := {
  net : string * string -> string -> get_result;
  auth_file : cfg_file;
  csv_ok : bool;
  mail_ok : bool;
  today : Z
}.

(** send_email *)
Definition send_email (w : audit_world) (m : msg) (start_date end_date : Z)
    (csvfile : option string) : PyM unit :=
  emit (EvMail start_date end_date m csvfile) ;;;
  if mail_ok w then print MsgEmailed else print MsgEmailFailed.

Definition DAY : Z := 86400.

(** main of orphaned_sessions.py, for the [--start-date] and [--end-date]
    arguments. *)
Definition audit_main (w : audit_world) (start_arg end_arg : option Z) : PyM unit :=
  let end_date := match end_arg with Some d => d | None => today w end in
  let start_date := match start_arg with Some d => d | None => (today w - 7 * DAY)%Z end in
  auth <- try_with (a <- read_xnat_auth (auth_file w) ;; ret (Some a))
                   (fun _ => print MsgAuthError ;;; ret None) ;;
  match auth with
  | None => ret tt
  | Some a =>
      data <- find_sessions_and_metadata (net w a) start_date end_date ;;
      match data with
      | [] =>
          print (MsgNoScans start_date end_date) ;;;
          send_email w (MsgNoScans start_date end_date) start_date end_date None
      | _ =>
          (if csv_ok w then emit (EvCsv CSV_FILENAME data) ;;; print MsgSavedCsv
           else print MsgCsvError) ;;;
          let n := num_orphans data in
          if (0 <? n)%nat then
            print (MsgOrphans n (length data)) ;;;
            send_email w (MsgOrphans n (length data)) start_date end_date (Some CSV_FILENAME)
          else
            print (MsgNoOrphans (length data)) ;;;
            send_email w (MsgNoOrphans (length data)) start_date end_date (Some CSV_FILENAME)
      end
  end.

(** ** adopt_orphans.py *)

Definition is_prefix (p q : path) : bool :=
  match strip_prefix p q with Some _ => true | None => false end.

(** [os.path.basename(p.rstrip('/'))] of a path given by its components. *)
Definition last_comp (p : path) : string := last p "".

(** The non-empty prefixes of [p], shortest first. *)
Fixpoint prefixes (p : path) : list path :=
  match p with
  | [] => []
  | x :: r => [x] :: map (cons x) (prefixes r)
  end.

(** [os.makedirs(p, exist_ok=True)]: creates the missing ancestors and [p]
    itself (stamped [now]); a component that is a file raises.  The model
    has no permissions: every directory is writable, so a file in the way
    is the only cause of failure it represents. *)
Definition makedirs (now : Z) (p : path) : PyM unit :=
  emit (EvMakedirs p) ;;;
  t <- get_fs ;;
  let step (acc : option fs) (q : path) :=
    match acc with
    | None => None
    | Some t1 =>
        match fs_lookup t1 q with
        | None => Some (t1 ++ [(q, Dir now)])%list
        | Some (Dir _) => Some t1
        | Some (File _) => None
        end
    end in
  match fold_left step (prefixes p) (Some t) with
  | Some t' => put_fs t'
  | None => raise (OSError "makedirs")
  end.

(** Renaming: every entry under [src] is moved under [dst]. *)
Definition rename_tree (src dst : path) (t : fs) : fs :=
  map (fun '(q, n) =>
         match strip_prefix src q with
         | Some s => ((dst ++ s)%list, n)
         | None => (q, n)
         end) t.

(** The entries at or under [p] removed (a replaced target). *)
Definition drop_under (p : path) (t : fs) : fs :=
  filter (fun '(q, _) => negb (is_prefix p q)) t.

(** The OS-level outcome of a move the checks of [shutil.move] accept:
    [None] when it succeeds, or the filesystem it leaves behind when it
    raises (permissions, a cross-device copy that fails half-way, ...). *)
Definition move_outcome := option fs.

(** [os.rename(src, real_dst)] with the fallback of [shutil.move]: moving a
    directory into itself raises. *)
Definition do_rename (fault : move_outcome) (src real_dst : path) : PyM unit :=
  t <- get_fs ;;
  if is_prefix src real_dst then raise ShutilError
  else match fault with
       | Some t' => put_fs t' ;;; raise (OSError "move")
       | None =>
           put_fs (rename_tree src real_dst (drop_under real_dst t)) ;;;
           emit (EvMoved src real_dst)
       end.

(** shutil.move(src, dst) *)
Definition shutil_move (fault : move_outcome) (src dst : path) : PyM unit :=
  t <- get_fs ;;
  match fs_lookup t src with
  | None => raise FileNotFoundError
  | Some src_node =>
      match fs_lookup t dst with
      | Some (Dir _) =>
          if path_eqb src dst then emit (EvMoved src dst)   (* renamed onto itself *)
          else
            let real_dst := (dst ++ [last_comp src])%list in
            match fs_lookup t real_dst with
            | Some _ => raise ShutilError   (* "Destination path already exists" *)
            | None => do_rename fault src real_dst
            end
      | Some (File _) =>
          (* a file may replace a file; a directory cannot *)
          if is_dir src_node then raise FileExistsError else do_rename fault src dst
      | None => do_rename fault src dst
      end
  end.

(** The answer of the import endpoint for given credentials. *)
Inductive post_result := PostResp (status : Z) (text : string) | PostExn (e : string).

Record adopt_world := {
  cred_file : cfg_file;
  post : string * string -> string -> post_result;
  move_fault : move_outcome;
  now : Z
}.

Definition exn_text (e : exn) : string :=
  match e with RequestError s | OSError s => s | _ => "" end.

(** The destination [os.path.join(inbox_base, project_id, dicom_dir_name)];
    an XNAT project id is one path component. *)
Definition dest_inbox_dir (inbox_base : path) (project_id : string) (local : path) : path :=
  let dicom_dir_name := last_comp local in
  ((inbox_base ++ [project_id]) ++
   (if String.eqb dicom_dir_name "" then [] else [dicom_dir_name]))%list.

Definition import_api_url (xnat_url project_id : string) (dest : path) : string :=
  xnat_url ++ "/data/services/import?" ++ "import-handler=inbox"
  ++ "&cleanupAfterImport=true" ++ "&PROJECT_ID=" ++ project_id
  ++ "&path=" ++ path_str dest.

(** main of adopt_orphans.py, for the arguments [local_dicom_dir] (after
    [os.path.abspath]), [--project], [--xnat-url] and [--inbox-base]. *)
Definition adopt_main (w : adopt_world) (local_dicom_dir : path) (project_id : string)
    (xnat_url_arg : string) (inbox_base : path) : PyM unit :=
  let xnat_url := rstrip_by is_slash xnat_url_arg in
  creds <- try_with (c <- get_credentials (cred_file w) ;; ret (Some c))
                    (fun _ => print MsgCredError ;;; ret None) ;;
  match creds with
  | None => ret tt
  | Some c =>
      let dest := dest_inbox_dir inbox_base project_id local_dicom_dir in
      makedirs (now w) (inbox_base ++ [project_id])%list ;;;
      moved <- try_with
                 (shutil_move (move_fault w) local_dicom_dir dest ;;;
                  print (MsgMoved (path_str local_dicom_dir) (path_str dest)) ;;;
                  ret true)
                 (fun _ => print MsgMoveError ;;; ret false) ;;
      if negb moved then ret tt
      else
        let url := import_api_url xnat_url project_id dest in
        try_with
          (emit (EvPost url) ;;;
           match post w c url with
           | PostExn e => raise (RequestError e)
           | PostResp st text =>
               if ((st =? 200) || (st =? 202))%Z then print (MsgImportOk text)
               else print (MsgImportFailed st text)
           end)
          (fun e => print (MsgApiError (exn_text e)))
  end.

(** * Vocabulary of the properties *)

Definition PRIMARY : string := "https://xnat2.bu.edu".
Definition SECONDARY : string := "https://xnat.bu.edu".

(** What [query_xnat_metadata] returns for one HTTP answer. *)
Definition lookup_result (r : get_result) : option json :=
  match r with
  | GetResp st (Some j) => if ((400 <=? st) && (st <? 600))%Z then None else Some j
  | _ => None
  end.

(** What it prints for one HTTP answer. *)
Definition lookup_log (url : string) (r : get_result) : list event :=
  match r with
  | GetExn _ => [EvPrint (MsgQueryError url)]
  | GetResp st b =>
      if ((400 <=? st) && (st <? 600))%Z then
        if (st =? 404)%Z then [] else [EvPrint (MsgHttpError url st)]
      else match b with Some _ => [] | None => [EvPrint (MsgQueryError url)] end
  end.

Definition row_project (d : string) : string := basename (dirname (dirname d)).
Definition row_session (d : string) : string := basename d.

(** The row built for the session directory [d]. *)
Definition row_of (t : fs) (sess : string -> get_result) (d : string) : row :=
  let u1 := query_url PRIMARY (row_project d) (row_session d) in
  let u2 := query_url SECONDARY (row_project d) (row_session d) in
  [("project", PStr (row_project d));
   ("session", PStr (row_session d));
   ("path", PStr d);
   ("last_modified", match fs_lookup t (parse_path d) with
                     | Some n => PTime (node_mtime n) | None => PNone end);
   ("metadata_xnat2", PBool (py_bool (lookup_result (sess u1))));
   ("metadata_xnat", PBool (py_bool (lookup_result (sess u2))))].

(** The events of building it. *)
Definition row_log (t : fs) (sess : string -> get_result) (d : string) : list event :=
  let u1 := query_url PRIMARY (row_project d) (row_session d) in
  let u2 := query_url SECONDARY (row_project d) (row_session d) in
  ((match fs_lookup t (parse_path d) with
    | Some _ => [] | None => [EvPrint (MsgLastModError d)] end)
   ++ (EvGet u1 :: lookup_log u1 (sess u1)) ++ (EvGet u2 :: lookup_log u2 (sess u2)))%list.

(** The orphan test of [main]: [metadata_xnat2 == False]. *)
Definition row_orphan (r : row) : bool := is_false_cell (assoc "metadata_xnat2" r).

(** The answers [sess] gives, except at [u0] where it answers [r0]. *)
Definition answer_at (sess : string -> get_result) (u0 : string) (r0 : get_result)
  : string -> get_result :=
  fun u => if String.eqb u u0 then r0 else sess u.

(** A lookup that neither succeeds nor is a 404: a transport exception,
    another 4xx/5xx status, or a body that is not JSON. *)
Definition lookup_failed (r : get_result) : Prop :=
  match r with
  | GetExn _ => True
  | GetResp st b => ((400 <= st < 600)%Z /\ st <> 404%Z)
                    \/ (~ (400 <= st < 600)%Z /\ b = None)
  end.








(** The outcome of the credential loading, which neither prints nor touches
    the filesystem. *)
Definition cred_result (cfg : cfg_file) : exn + (string * string) :=
  snd (get_credentials cfg []).

Definition auth_result (cfg : cfg_file) : exn + (string * string) :=
  snd (read_xnat_auth cfg []).

(** A key resolves to a plain value in [auth] (or, failing that, in
    [DEFAULT]). *)
Definition cfg_resolves (defaults sec : list (string * cfg_value)) (key : string) : bool :=
  match section_get defaults sec key with Some (CVal _) => true | _ => false end.

Definition cfg_loadable (cfg : cfg_file) : bool :=
  match cfg with
  | CfgParsed defaults sections =>
      match assoc "auth" sections with
      | Some sec => cfg_resolves defaults sec "username" && cfg_resolves defaults sec "password"
      | None => false
      end
  | _ => false
  end.

(** What the import step prints for one answer of the endpoint. *)
Definition post_log (r : post_result) : list event :=
  match r with
  | PostExn e => [EvPrint (MsgApiError e)]
  | PostResp st text =>
      if ((st =? 200) || (st =? 202))%Z then [EvPrint (MsgImportOk text)]
      else [EvPrint (MsgImportFailed st text)]
  end.

(** Membership in a concrete trace or listing. *)
Ltac in_trace := vm_compute; repeat (first [left; reflexivity | right]).

(** The URLs requested, in order. *)
Definition get_urls (evs : list event) : list string :=
  flat_map (fun ev => match ev with EvGet u => [u] | _ => [] end) evs.

(** The mails sent. *)
Definition csv_events (evs : list event) : list event :=
  filter (fun ev => match ev with EvCsv _ _ => true | _ => false end) evs.

Definition mail_events (evs : list event) : list event :=
  filter (fun ev => match ev with EvMail _ _ _ _ => true | _ => false end) evs.

(** The loop body of [makedirs], one prefix at a time. *)
Definition makedirs_step (now : Z) (acc : option fs) (q : path) : option fs :=
  match acc with
  | None => None
  | Some t1 =>
      match fs_lookup t1 q with
      | None => Some (t1 ++ [(q, Dir now)])%list
      | Some (Dir _) => Some t1
      | Some (File _) => None
      end
  end.

(** ** Example inputs *)

Definition JAN05 : Z := 1704412800.
Definition JAN10 : Z := 1704844800.
Definition JAN15 : Z := 1705276800.
Definition JAN20 : Z := 1705708800.
Definition JAN25 : Z := 1706140800.

(** An archive with one project whose [arc001] lists [Sess2] (modified on
    the 20th) before [Sess1] (modified on the 10th). *)
Definition demo_archive : fs :=
  [(["data"], Dir 0); (["data"; "xnat"], Dir 0); (ARCHIVE_ROOT, Dir 0);
   (["data"; "xnat"; "archive"; "ProjectA"], Dir JAN10);
   (["data"; "xnat"; "archive"; "ProjectA"; "arc001"], Dir JAN20);
   (["data"; "xnat"; "archive"; "ProjectA"; "arc001"; "Sess2"], Dir JAN20);
   (["data"; "xnat"; "archive"; "ProjectA"; "arc001"; "Sess1"], Dir JAN10)].

(** An archive root without any project. *)
Definition demo_empty_archive : fs :=
  [(["data"], Dir 0); (["data"; "xnat"], Dir 0); (ARCHIVE_ROOT, Dir 0)].

Definition demo_body : json := JObj [("ResultSet", JObj [("totalRecords", JStr "1")])].

(** Both instances know every session, except that the primary instance
    answers [r0] for [ProjectA/Sess2]. *)
Definition demo_net (r0 : get_result) : string -> get_result :=
  answer_at (fun _ => GetResp 200 (Some demo_body))
            (query_url PRIMARY "ProjectA" "Sess2") r0.

Definition demo_cfg : cfg_file :=
  CfgParsed [] [("auth", [("username", CVal "alice"); ("password", CVal "secret")])].

(** [username] and [password] only under [DEFAULT], and an empty [auth]. *)
Definition demo_cfg_defaults : cfg_file :=
  CfgParsed [("username", CVal "alice"); ("password", CVal "secret")] [("auth", [])].

Definition demo_audit (r0 : get_result) : audit_world := {|
  net := fun _ => demo_net r0;
  auth_file := demo_cfg;
  csv_ok := true;
  mail_ok := true;
  today := JAN25
|}.

Definition demo_find (r0 : get_result) (s e : Z) :=
  find_sessions_and_metadata (demo_net r0) s e demo_archive.

Definition result_rows (r : list event * fs * (exn + list row)) : list row :=
  match snd r with inr rows => rows | inl _ => [] end.

(** A local directory [/home/D] holding one file, and an inbox. *)
Definition demo_local : fs :=
  [(["home"], Dir 0); (["home"; "D"], Dir 1); (["home"; "D"; "f"], File 1); (["inbox"], Dir 0)].

(** The same, with [/inbox/P/D] already present. *)
Definition demo_local_taken : fs :=
  (demo_local ++ [(["inbox"; "P"], Dir 0); (["inbox"; "P"; "D"], Dir 0)])%list.

(** Credentials load, the move succeeds, the endpoint answers 500. *)
Definition demo_adopt : adopt_world := {|
  cred_file := demo_cfg;
  post := fun _ _ => PostResp 500 "boom";
  move_fault := None;
  now := 5
|}.

Definition demo_adopt_run (t : fs) :=
  adopt_main demo_adopt ["home"; "D"] "P" "http://localhost:8080/" ["inbox"] t.

(** * Properties *)

(** ** Run lemmas of the audit *)

Lemma query_xnat_metadata_run sess base p l t :
  query_xnat_metadata sess base p l t =
  (EvGet (query_url base p l) :: lookup_log (query_url base p l) (sess (query_url base p l)),
   t, inr (lookup_result (sess (query_url base p l)))).
Proof.
  unfold query_xnat_metadata, try_with, bind, http_get, emit, raise_for_status,
    response_json, print, ret, raise, lookup_log, lookup_result.
  destruct (sess (query_url base p l)) as [st [j|]|e]; simpl.
  - destruct ((400 <=? st) && (st <? 600))%Z; simpl; [|reflexivity].
    destruct (st =? 404)%Z; reflexivity.
  - destruct ((400 <=? st) && (st <? 600))%Z; simpl; [|reflexivity].
    destruct (st =? 404)%Z; reflexivity.
  - reflexivity.
Qed.

Lemma session_row_run d sess t :
  session_row d sess t = (row_log t sess d, t, inr (row_of t sess d)).
Proof.
  unfold session_row, row_log, row_of, row_project, row_session.
  cbv beta iota delta [bind ret mapM py_index get_last_modified get_fs print emit
                       XNAT_INSTANCES nth_error].
  unfold PRIMARY, SECONDARY.
  destruct (fs_lookup t (parse_path d)); cbn -[query_xnat_metadata];
    rewrite !query_xnat_metadata_run; cbn;
    rewrite ?app_nil_r, <- ?app_assoc; reflexivity.
Qed.

Lemma session_rows_run dirs sess t :
  mapM (fun d => session_row d sess) dirs t =
  (flat_map (row_log t sess) dirs, t, inr (map (row_of t sess) dirs)).
Proof.
  induction dirs as [|d r IH]; [reflexivity|].
  simpl. unfold bind at 1. rewrite session_row_run.
  unfold bind. rewrite IH. simpl. rewrite app_nil_r. reflexivity.
Qed.

Lemma find_sessions_run sess s e t :
  find_sessions_and_metadata sess s e t =
  match query_sessions s e t with
  | (w, t', inl ex) => (w, t', inl ex)
  | (w, t', inr dirs) =>
      ((w ++ flat_map (row_log t' sess) dirs)%list, t', inr (map (row_of t' sess) dirs))
  end.
Proof.
  unfold find_sessions_and_metadata, bind at 1.
  destruct (query_sessions s e t) as [[w t'] [ex|dirs]]; [reflexivity|].
  rewrite session_rows_run. reflexivity.
Qed.

Lemma query_sessions_state s e t :
  exists w r, query_sessions s e t = (w, t, r).
Proof.
  unfold query_sessions, bind, get_fs, emit.
  destruct (find_run t s e (glob_arc001 t)) as [lines ok].
  destruct ok; simpl; eexists; eexists; reflexivity.
Qed.

Lemma find_sessions_rows sess s e t w t' rows :
  find_sessions_and_metadata sess s e t = (w, t', inr rows) ->
  exists w0 dirs, query_sessions s e t = (w0, t, inr dirs) /\ t' = t
                  /\ rows = map (row_of t sess) dirs.
Proof.
  rewrite find_sessions_run.
  destruct (query_sessions_state s e t) as [w0 [r Hq]]. rewrite Hq.
  destruct r as [ex|dirs]; [discriminate|].
  intros H; inversion H; subst. eauto.
Qed.

Lemma row_orphan_row_of t sess d :
  row_orphan (row_of t sess d) =
  negb (py_bool (lookup_result (sess (query_url PRIMARY (row_project d) (row_session d))))).
Proof.
  unfold row_orphan, row_of; simpl.
  destruct (py_bool _); reflexivity.
Qed.

Lemma num_orphans_filter rows : num_orphans rows = length (filter row_orphan rows).
Proof. reflexivity. Qed.

Lemma num_orphans_ext rows1 rows2 :
  map row_orphan rows1 = map row_orphan rows2 -> num_orphans rows1 = num_orphans rows2.
Proof.
  rewrite !num_orphans_filter.
  revert rows2; induction rows1 as [|r1 l1 IH]; intros [|r2 l2] H; simpl in *;
    try discriminate; [reflexivity|].
  injection H as Hr Hl. rewrite Hr. destruct (row_orphan r2); simpl; auto.
Qed.

Lemma row_of_ext t sess1 sess2 d :
  (forall u, py_bool (lookup_result (sess1 u)) = py_bool (lookup_result (sess2 u))) ->
  row_of t sess1 d = row_of t sess2 d.
Proof. intros H. unfold row_of. rewrite !H. reflexivity. Qed.

Lemma row_log_ext t sess1 sess2 d :
  (forall u, lookup_log u (sess1 u) = lookup_log u (sess2 u)) ->
  row_log t sess1 d = row_log t sess2 d.
Proof. intros H. unfold row_log. rewrite !H. reflexivity. Qed.

Lemma find_sessions_ext sess1 sess2 s e t :
  (forall u, py_bool (lookup_result (sess1 u)) = py_bool (lookup_result (sess2 u))) ->
  (forall u, lookup_log u (sess1 u) = lookup_log u (sess2 u)) ->
  find_sessions_and_metadata sess1 s e t = find_sessions_and_metadata sess2 s e t.
Proof.
  intros Hb Hl. rewrite !find_sessions_run.
  destruct (query_sessions s e t) as [[w t'] [ex|dirs]]; [reflexivity|].
  f_equal; [f_equal; f_equal|].
  - apply flat_map_ext. intros d. apply row_log_ext, Hl.
  - f_equal. apply map_ext. intros d. apply row_of_ext, Hb.
Qed.

Lemma find_sessions_result_ext sess1 sess2 s e t :
  (forall u, py_bool (lookup_result (sess1 u)) = py_bool (lookup_result (sess2 u))) ->
  snd (find_sessions_and_metadata sess1 s e t) = snd (find_sessions_and_metadata sess2 s e t).
Proof.
  intros Hb. rewrite !find_sessions_run.
  destruct (query_sessions s e t) as [[w t'] [ex|dirs]]; [reflexivity|].
  simpl. f_equal. apply map_ext. intros d. apply row_of_ext, Hb.
Qed.

Lemma error_range_2xx st : (200 <= st < 300)%Z -> ((400 <=? st) && (st <? 600))%Z = false.
Proof. intros H. destruct (Z.leb_spec 400 st); simpl; [lia|reflexivity]. Qed.

(** ** Claims about the reconciliation *)

(** C1: the orphan test reads the primary instance (the first of
    [XNAT_INSTANCES]) only.  In every row of a run, the session is an orphan
    exactly when the primary lookup did not give a truthy body; a 404 there
    makes it an orphan, a 2xx with a (truthy) body makes it known; and
    answers of any other instance change neither the orphan column nor the
    orphan count. *)
Theorem primary_instance_decides_orphans (sess : string -> get_result) s e t w t' rows
  (Hrun : find_sessions_and_metadata sess s e t = (w, t', inr rows)) :
  nth_error XNAT_INSTANCES 0 = Some PRIMARY /\
  (forall r, In r rows ->
     exists project session,
       assoc "project" r = Some (PStr project) /\
       assoc "session" r = Some (PStr session) /\
       row_orphan r = negb (py_bool (lookup_result (sess (query_url PRIMARY project session)))) /\
       ((exists b, sess (query_url PRIMARY project session) = GetResp 404 b) ->
        row_orphan r = true) /\
       (forall st j, sess (query_url PRIMARY project session) = GetResp st (Some j) ->
        (200 <= st < 300)%Z -> json_truthy j = true -> row_orphan r = false)) /\
  (forall sess2,
     (forall p l, sess2 (query_url PRIMARY p l) = sess (query_url PRIMARY p l)) ->
     exists w2 rows2,
       find_sessions_and_metadata sess2 s e t = (w2, t', inr rows2) /\
       map row_orphan rows2 = map row_orphan rows /\
       num_orphans rows2 = num_orphans rows).
Proof.
  destruct (find_sessions_rows _ _ _ _ _ _ _ Hrun) as [w0 [dirs [Hq [-> ->]]]].
  split; [reflexivity|]. split.
  - intros r Hin. apply in_map_iff in Hin as [d [<- _]].
    exists (row_project d), (row_session d).
    split; [reflexivity|]. split; [reflexivity|].
    rewrite row_orphan_row_of. split; [reflexivity|]. split.
    + intros [b ->]. destruct b; reflexivity.
    + intros st j -> H2 Hj. unfold lookup_result. rewrite (error_range_2xx st H2). simpl. rewrite Hj. reflexivity.
  - intros sess2 Hagree.
    rewrite find_sessions_run, Hq.
    eexists; eexists; split; [reflexivity|].
    assert (Hm : map row_orphan (map (row_of t sess2) dirs)
                 = map row_orphan (map (row_of t sess) dirs)).
    { rewrite !map_map. apply map_ext. intros d.
      rewrite !row_orphan_row_of, Hagree. reflexivity. }
    split; [exact Hm|]. apply num_orphans_ext, Hm.
Qed.

(** C10: on either instance, a 2xx answer whose JSON body is falsy ([{}],
    [[]], [null], ...) is recorded as not present: the instance's column
    ([metadata_xnat2] for the primary, [metadata_xnat] for the secondary)
    holds [False], the whole run (effects, rows) is the same as if that
    instance had answered 404, and on the primary instance the session
    counts as an orphan. *)
Theorem falsy_body_counts_as_absent sess s e t project session st j inst col
  (Hinst : In (inst, col) [(PRIMARY, "metadata_xnat2"); (SECONDARY, "metadata_xnat")])
  (H2xx : (200 <= st < 300)%Z) (Hfalsy : json_truthy j = false)
  (Hresp : sess (query_url inst project session) = GetResp st (Some j)) :
  find_sessions_and_metadata sess s e t
  = find_sessions_and_metadata
      (answer_at sess (query_url inst project session) (GetResp 404 None)) s e t /\
  (forall w t' rows r,
     find_sessions_and_metadata sess s e t = (w, t', inr rows) -> In r rows ->
     assoc "project" r = Some (PStr project) -> assoc "session" r = Some (PStr session) ->
     assoc col r = Some (PBool false) /\
     (inst = PRIMARY -> row_orphan r = true)).
Proof.
  split.
  - apply find_sessions_ext; intros u; unfold answer_at;
      destruct (String.eqb_spec u (query_url inst project session)) as [->|_];
      try reflexivity; rewrite Hresp; simpl; rewrite (error_range_2xx st H2xx);
      [exact Hfalsy|reflexivity].
  - intros w t' rows r Hrun Hin Hp Hs.
    destruct (find_sessions_rows _ _ _ _ _ _ _ Hrun) as [w0 [dirs [_ [-> ->]]]].
    apply in_map_iff in Hin as [d [<- _]].
    simpl in Hp, Hs. injection Hp as Hp. injection Hs as Hs.
    unfold row_orphan, row_of. simpl. rewrite Hp, Hs.
    destruct Hinst as [Hi|[Hi|[]]]; injection Hi as <- <-.
    + rewrite Hresp. simpl.
      rewrite (error_range_2xx st H2xx). cbn [py_bool is_false_cell]. rewrite Hfalsy.
      split; reflexivity.
    + rewrite Hresp. simpl.
      rewrite (error_range_2xx st H2xx). cbn [py_bool is_false_cell]. rewrite Hfalsy.
      split; [reflexivity|discriminate].
Qed.

Lemma error_range_true st :
  ((400 <=? st) && (st <? 600))%Z = true <-> (400 <= st < 600)%Z.
Proof.
  rewrite andb_true_iff, Z.leb_le, Z.ltb_lt. tauto.
Qed.

Lemma lookup_failed_result r : lookup_failed r -> lookup_result r = None.
Proof.
  destruct r as [st b|e]; simpl; [|reflexivity].
  intros [[Hr _]|[Hr ->]]; [|reflexivity].
  apply error_range_true in Hr. destruct b; [rewrite Hr|]; reflexivity.
Qed.

Lemma lookup_failed_logged u r : lookup_failed r -> lookup_log u r <> [].
Proof.
  destruct r as [st b|e]; simpl; [|discriminate].
  intros [[Hr H4]|[Hr ->]].
  - apply error_range_true in Hr. rewrite Hr.
    destruct (Z.eqb_spec st 404); [contradiction|discriminate].
  - destruct ((400 <=? st) && (st <? 600))%Z eqn:E.
    + apply error_range_true in E. contradiction.
    + discriminate.
Qed.

Lemma find_sessions_error sess s e t w t' ex :
  find_sessions_and_metadata sess s e t = (w, t', inl ex) ->
  exists w0, query_sessions s e t = (w0, t, inl ex).
Proof.
  rewrite find_sessions_run.
  destruct (query_sessions_state s e t) as [w0 [r Hq]]. rewrite Hq.
  destruct r as [ex'|dirs]; intros H; inversion H; subst; eauto.
Qed.

(** C2 (as amended): a lookup that fails otherwise than by a 404 returns
    [None] like a 404 does, after logging the URL (instance and session) of
    the failure; the rows of the run are the same as if the primary instance
    had answered 404, so the session counts as an orphan; and no lookup
    failure aborts the run (a run fails only when the enumeration does). *)
Theorem failed_lookup_same_as_404 sess s e t project session r
  (Hfail : lookup_failed r)
  (Hresp : sess (query_url PRIMARY project session) = r) :
  lookup_result r = lookup_result (GetResp 404 None) /\
  lookup_log (query_url PRIMARY project session) r <> [] /\
  snd (find_sessions_and_metadata sess s e t)
  = snd (find_sessions_and_metadata
           (answer_at sess (query_url PRIMARY project session) (GetResp 404 None)) s e t) /\
  (forall w t' rows row,
     find_sessions_and_metadata sess s e t = (w, t', inr rows) -> In row rows ->
     assoc "project" row = Some (PStr project) -> assoc "session" row = Some (PStr session) ->
     row_orphan row = true) /\
  (forall w t' ex,
     find_sessions_and_metadata sess s e t = (w, t', inl ex) ->
     exists w0, query_sessions s e t = (w0, t, inl ex)).
Proof.
  split; [rewrite (lookup_failed_result r Hfail); reflexivity|].
  split; [apply lookup_failed_logged; exact Hfail|].
  split.
  { apply find_sessions_result_ext. intros u. unfold answer_at.
    destruct (String.eqb_spec u (query_url PRIMARY project session)) as [->|_];
      [|reflexivity].
    rewrite Hresp, (lookup_failed_result r Hfail). reflexivity. }
  split; [|apply find_sessions_error].
  intros w t' rows row Hrun Hin Hp Hs.
  destruct (find_sessions_rows _ _ _ _ _ _ _ Hrun) as [w0 [dirs [_ [-> ->]]]].
  apply in_map_iff in Hin as [d [<- _]].
  simpl in Hp, Hs. injection Hp as Hp. injection Hs as Hs.
  rewrite row_orphan_row_of, Hp, Hs, Hresp, (lookup_failed_result r Hfail).
  reflexivity.
Qed.

(** C7: every row of a run has a boolean column for each of the two
    configured instances, holding the truthiness of that instance's lookup;
    a failed lookup still yields the value [False], never a missing key. *)
Theorem every_row_has_all_instance_columns sess s e t w t' rows
  (Hrun : find_sessions_and_metadata sess s e t = (w, t', inr rows)) :
  XNAT_INSTANCES = [PRIMARY; SECONDARY] /\
  (forall r, In r rows ->
     exists project session,
       assoc "project" r = Some (PStr project) /\
       assoc "session" r = Some (PStr session) /\
       assoc "metadata_xnat2" r
         = Some (PBool (py_bool (lookup_result (sess (query_url PRIMARY project session))))) /\
       assoc "metadata_xnat" r
         = Some (PBool (py_bool (lookup_result (sess (query_url SECONDARY project session)))))).
Proof.
  split; [reflexivity|].
  destruct (find_sessions_rows _ _ _ _ _ _ _ Hrun) as [w0 [dirs [_ [-> ->]]]].
  intros r Hin. apply in_map_iff in Hin as [d [<- _]].
  exists (row_project d), (row_session d). repeat split.
Qed.

(** ** String lemmas *)

Lemma append_empty_r (s : string) : s ++ "" = s.
Proof. induction s as [|c s IH]; simpl; [reflexivity|rewrite IH; reflexivity]. Qed.





Lemma rstrip_all f t : all_by f t = true -> rstrip_by f t = "".
Proof.
  induction t as [|c t IH]; simpl; [reflexivity|].
  intros H. apply andb_true_iff in H as [Hc Ht]. rewrite IH by exact Ht. rewrite Hc. reflexivity.
Qed.






(** ** Filesystem lemmas *)

Lemma strip_prefix_app p s : strip_prefix p (p ++ s)%list = Some s.
Proof.
  induction p as [|x p IH]; simpl; [reflexivity|].
  destruct (string_dec x x); [exact IH|contradiction].
Qed.

Lemma strip_prefix_some p q s : strip_prefix p q = Some s -> q = (p ++ s)%list.
Proof.
  revert q. induction p as [|x p IH]; intros [|y q]; simpl; try discriminate.
  - intros H; injection H; auto.
  - intros H; injection H; auto.
  - destruct (string_dec x y) as [->|]; [|discriminate].
    intros H. rewrite (IH q H). reflexivity.
Qed.



Lemma path_eqb_iff p q : path_eqb p q = true <-> p = q.
Proof. unfold path_eqb. destruct (list_eq_dec string_dec p q); split; congruence. Qed.

Lemma fs_lookup_in_fs t q n : fs_lookup t q = Some n -> In (q, n) t.
Proof.
  induction t as [|[q' m] t IH]; simpl; [discriminate|].
  destruct (path_eqb q q') eqn:E.
  - apply path_eqb_iff in E as ->. intros H; injection H as ->. auto.
  - auto.
Qed.














Lemma is_nl_ws ch : is_nl ch = true -> is_slash ch || is_ws ch = true.
Proof. unfold is_nl. intros H. apply Ascii.eqb_eq in H as ->. reflexivity. Qed.







Lemma find_run_fst t s e sps :
  fst (find_run t s e sps) = flat_map (fun sp => fst (find_start t s e sp)) sps.
Proof.
  induction sps as [|sp r IH]; [reflexivity|]. simpl.
  destruct (find_start t s e sp) as [o1 k1]. destruct (find_run t s e r) as [o2 k2].
  simpl in *. rewrite IH. reflexivity.
Qed.











(** ** Claims about the enumeration *)



(** C8 (the defect): when no project of the archive root holds an [arc001]
    entry, the glob stays unexpanded, [find] fails on the literal pattern
    and [check_output] raises: the enumeration raises instead of returning
    an empty list. *)
Theorem empty_archive_raises t s e
  (Hnone : glob_projects t = [])
  (Hlit : fs_lookup t (parse_path GLOB_PATTERN) = None) :
  query_sessions s e t = ([EvFind [GLOB_PATTERN] s e], t, inl CalledProcessError).
Proof.
  unfold query_sessions, bind, get_fs, emit, glob_arc001. rewrite Hnone. simpl.
  unfold find_start. rewrite Hlit. reflexivity.
Qed.

(** ** Run lemmas of the adoption *)

Lemma get_credentials_run cfg t : get_credentials cfg t = ([], t, cred_result cfg).
Proof.
  unfold cred_result, get_credentials, bind, ret, raise.
  destruct cfg as [| |d secs]; [reflexivity|reflexivity|].
  destruct (assoc "auth" secs) as [sec|]; [|reflexivity].
  destruct (section_get d sec "username") as [[u|]|]; [|reflexivity|reflexivity].
  destruct (section_get d sec "password") as [[p|]|]; reflexivity.
Qed.

Lemma read_xnat_auth_run cfg t : read_xnat_auth cfg t = ([], t, auth_result cfg).
Proof.
  unfold auth_result, read_xnat_auth, bind, ret, raise.
  destruct cfg as [| |d secs]; [reflexivity|reflexivity|].
  destruct (assoc "auth" secs) as [sec|]; [|reflexivity].
  destruct (section_get d sec "username") as [[u|]|]; [|reflexivity|reflexivity].
  destruct (section_get d sec "password") as [[p|]|]; reflexivity.
Qed.

Lemma cred_result_loadable cfg :
  (exists e, cred_result cfg = inl e) <-> cfg_loadable cfg = false.
Proof.
  unfold cred_result, cfg_loadable, cfg_resolves, get_credentials, bind, ret, raise.
  destruct cfg as [| |d secs]; simpl; [split; eauto|split; eauto|].
  destruct (assoc "auth" secs) as [sec|]; simpl; [|split; eauto].
  destruct (section_get d sec "username") as [[u|]|]; simpl; [|split; eauto|split; eauto].
  destruct (section_get d sec "password") as [[p|]|]; simpl; split; eauto;
    intros H; try discriminate; destruct H; discriminate.
Qed.

Lemma auth_result_loadable cfg :
  (exists e, auth_result cfg = inl e) <-> cfg_loadable cfg = false.
Proof.
  unfold auth_result, cfg_loadable, cfg_resolves, read_xnat_auth, bind, ret, raise.
  destruct cfg as [| |d secs]; simpl; [split; eauto|split; eauto|].
  destruct (assoc "auth" secs) as [sec|]; simpl; [|split; eauto].
  destruct (section_get d sec "username") as [[u|]|]; simpl; [|split; eauto|split; eauto].
  destruct (section_get d sec "password") as [[p|]|]; simpl; split; eauto;
    intros H; try discriminate; destruct H; discriminate.
Qed.

Lemma adopt_main_run w local project url_arg inbox t :
  adopt_main w local project url_arg inbox t =
  match cred_result (cred_file w) with
  | inl _ => ([EvPrint MsgCredError], t, inr tt)
  | inr c =>
      let dest := dest_inbox_dir inbox project local in
      match makedirs (now w) (inbox ++ [project])%list t with
      | (w1, t1, inl e) => (w1, t1, inl e)
      | (w1, t1, inr _) =>
          match shutil_move (move_fault w) local dest t1 with
          | (wm, t2, inl _) => ((w1 ++ wm ++ [EvPrint MsgMoveError])%list, t2, inr tt)
          | (wm, t2, inr _) =>
              let url := import_api_url (rstrip_by is_slash url_arg) project dest in
              ((w1 ++ wm ++ [EvPrint (MsgMoved (path_str local) (path_str dest)); EvPost url]
                ++ post_log (post w c url))%list, t2, inr tt)
          end
      end
  end.
Proof.
  unfold adopt_main. unfold bind at 1, try_with at 1. unfold bind at 1.
  rewrite get_credentials_run.
  destruct (cred_result (cred_file w)) as [e|c]; [reflexivity|].
  cbv zeta. unfold ret at 1. simpl.
  unfold bind at 1.
  destruct (makedirs (now w) (inbox ++ [project])%list t) as [[w1 t1] [e|[]]]; [reflexivity|].
  unfold bind at 1, try_with at 1.
  unfold bind at 1.
  destruct (shutil_move (move_fault w) local (dest_inbox_dir inbox project local) t1)
    as [[wm t2] [e|[]]].
  - unfold bind, print, emit, ret. simpl. rewrite ?app_nil_r, <- ?app_assoc. reflexivity.
  - unfold bind, print, emit, ret, try_with, raise, post_log. simpl.
    destruct (post w c _) as [st text|e]; simpl.
    + destruct ((st =? 200) || (st =? 202))%Z; simpl; rewrite ?app_nil_r, <- ?app_assoc; reflexivity.
    + rewrite ?app_nil_r, <- ?app_assoc; reflexivity.
Qed.

Lemma post_log_prints r ev : In ev (post_log r) -> exists m, ev = EvPrint m.
Proof.
  unfold post_log. destruct r as [st text|e]; [destruct ((st =? 200) || (st =? 202))%Z|];
    simpl; intros [<-|[]]; eauto.
Qed.

Lemma makedirs_events now p t : exists t1 r, makedirs now p t = ([EvMakedirs p], t1, r).
Proof.
  unfold makedirs, bind, emit, get_fs, put_fs, raise. simpl.
  destruct (fold_left _ (prefixes p) (Some t)); eauto.
Qed.

Lemma do_rename_events fault src dst t :
  let '(wm, t2, r) := do_rename fault src dst t in
  (r = inr tt /\ wm = [EvMoved src dst]) \/ (exists e, r = inl e /\ wm = []).
Proof.
  unfold do_rename, bind, get_fs, raise, put_fs, emit. simpl.
  destruct (is_prefix src dst); [right; eauto|].
  destruct fault; simpl; [right; eauto|left; auto].
Qed.

Lemma shutil_move_events fault src dst t :
  let '(wm, t2, r) := shutil_move fault src dst t in
  (r = inr tt /\ exists a b, wm = [EvMoved a b]) \/ (exists e, r = inl e /\ wm = []).
Proof.
  unfold shutil_move, bind, get_fs. simpl.
  destruct (fs_lookup t src) as [sn|]; [|right; eauto].
  destruct (fs_lookup t dst) as [[m|m]|].
  - destruct (path_eqb src dst); [left; eauto|].
    destruct (fs_lookup t (dst ++ [last_comp src])%list); [right; eauto|].
    pose proof (do_rename_events fault src (dst ++ [last_comp src])%list t) as H.
    destruct (do_rename _ _ _ t) as [[wm t2] r].
    destruct H as [[-> ->]|H]; eauto.
  - destruct (is_dir sn); [right; eauto|].
    pose proof (do_rename_events fault src dst t) as H.
    destruct (do_rename _ _ _ t) as [[wm t2] r].
    destruct H as [[-> ->]|H]; eauto.
  - pose proof (do_rename_events fault src dst t) as H.
    destruct (do_rename _ _ _ t) as [[wm t2] r].
    destruct H as [[-> ->]|H]; eauto.
Qed.

(** ** Claims about the adoption *)

(** C4: the import endpoint is contacted only after the move succeeded.
    Whenever a run of the adoption issues an import request, the
    credentials loaded, [os.makedirs] returned, [shutil.move] returned
    normally after moving the directory, and that move comes before the
    request in the run's trace.  So a failed move (or a failed
    [os.makedirs]) means no import request. *)
Theorem import_only_after_move w local project url_arg inbox t evs t' r u
  (Hrun : adopt_main w local project url_arg inbox t = (evs, t', r))
  (Hpost : In (EvPost u) evs) :
  exists c t1 t2 a b,
    cred_result (cred_file w) = inr c /\
    makedirs (now w) (inbox ++ [project])%list t
      = ([EvMakedirs (inbox ++ [project])%list], t1, inr tt) /\
    shutil_move (move_fault w) local (dest_inbox_dir inbox project local) t1
      = ([EvMoved a b], t2, inr tt) /\
    exists pre post, evs = (pre ++ EvPost u :: post)%list /\ In (EvMoved a b) pre.
Proof.
  rewrite adopt_main_run in Hrun.
  destruct (cred_result (cred_file w)) as [e|c] eqn:Ec.
  { injection Hrun as <- _ _. destruct Hpost as [H|[]]. discriminate. }
  cbv zeta in Hrun.
  destruct (makedirs_events (now w) (inbox ++ [project])%list t) as [t1 [rm Hm]].
  rewrite Hm in Hrun.
  destruct rm as [e|[]].
  { injection Hrun as <- _ _. destruct Hpost as [H|[]]. discriminate. }
  assert (Hm' : makedirs (now w) (inbox ++ [project])%list t
                = ([EvMakedirs (inbox ++ [project])%list], t1, inr tt)) by exact Hm.
  pose proof (shutil_move_events (move_fault w) local (dest_inbox_dir inbox project local) t1)
    as Hs.
  destruct (shutil_move _ _ _ t1) as [[wm t2] rs] eqn:Es.
  destruct Hs as [[-> [a [b ->]]]|[e [-> ->]]].
  - injection Hrun as <- _ _.
    exists c, t1, t2, a, b. split; [reflexivity|]. split; [exact Hm'|]. split; [exact Es|].
    simpl in Hpost.
    destruct Hpost as [H|[H|[H|[H|H]]]]; try discriminate.
    + injection H as <-.
      exists [EvMakedirs (inbox ++ [project])%list; EvMoved a b;
              EvPrint (MsgMoved (path_str local) (path_str (dest_inbox_dir inbox project local)))].
      eexists. split; [reflexivity|]. simpl. auto.
    + apply post_log_prints in H as [m Hq]. discriminate.
  - injection Hrun as <- _ _. simpl in Hpost.
    destruct Hpost as [H|[H|[]]]; discriminate.
Qed.

(** ** Filesystem effects of the adoption *)

Lemma is_prefix_app p s : is_prefix p (p ++ s)%list = true.
Proof. unfold is_prefix. rewrite strip_prefix_app. reflexivity. Qed.

Lemma is_prefix_true p q : is_prefix p q = true -> exists s, q = (p ++ s)%list.
Proof.
  unfold is_prefix. destruct (strip_prefix p q) as [s|] eqn:E; [|discriminate].
  intros _. exists s. apply strip_prefix_some. exact E.
Qed.

Lemma fs_lookup_app_some (t e : fs) x n :
  fs_lookup t x = Some n -> fs_lookup (t ++ e)%list x = Some n.
Proof.
  induction t as [|[q m] t IH]; simpl; [discriminate|].
  destruct (path_eqb x q); auto.
Qed.

Lemma fold_none (f : option fs -> path -> option fs) l :
  (forall q, f None q = None) -> fold_left f l None = None.
Proof. intros Hf. induction l as [|x l IH]; simpl; [reflexivity|]. rewrite Hf. exact IH. Qed.

Lemma fold_extends (f : option fs -> path -> option fs) l t0 t' :
  (forall q, f None q = None) ->
  (forall t1 q t2, f (Some t1) q = Some t2 ->
     exists e, t2 = (t1 ++ e)%list /\ forall q' n, In (q', n) e -> q' = q) ->
  fold_left f l (Some t0) = Some t' ->
  exists e, t' = (t0 ++ e)%list /\ forall q n, In (q, n) e -> In q l.
Proof.
  intros Hnone Hstep. revert t0. induction l as [|x l IH]; simpl; intros t0 H.
  - injection H as <-. exists []. split; [symmetry; apply app_nil_r|]. intros q n [].
  - destruct (f (Some t0) x) as [t2|] eqn:E.
    + destruct (Hstep _ _ _ E) as [e1 [-> He1]].
      destruct (IH _ H) as [e2 [-> He2]].
      exists (e1 ++ e2)%list. split; [symmetry; apply app_assoc|].
      intros q n Hin. apply in_app_or in Hin as [Hin|Hin].
      * left. symmetry. exact (He1 _ _ Hin).
      * right. exact (He2 _ _ Hin).
    + rewrite fold_none in H by exact Hnone. discriminate.
Qed.

Lemma prefixes_prefix q p : In q (prefixes p) -> exists s, p = (q ++ s)%list.
Proof.
  revert q. induction p as [|x r IH]; simpl; intros q H; [contradiction|].
  destruct H as [<-|H].
  - exists r. reflexivity.
  - apply in_map_iff in H as [q' [<- Hq']].
    destruct (IH _ Hq') as [s ->]. exists s. reflexivity.
Qed.

(** [os.makedirs] only adds entries, at ancestors of its argument. *)
Lemma makedirs_extends now p t w t1 :
  makedirs now p t = (w, t1, inr tt) ->
  exists e, t1 = (t ++ e)%list /\ forall q n, In (q, n) e -> In q (prefixes p).
Proof.
  unfold makedirs, bind, emit, get_fs, put_fs, raise. simpl.
  destruct (fold_left _ (prefixes p) (Some t)) as [t2|] eqn:E; [|discriminate].
  intros H. injection H as _ <-.
  refine (fold_extends _ _ _ _ _ _ E); [reflexivity|].
  intros t3 q t4 H. destruct (fs_lookup t3 q) as [[m|m]|].
  - injection H as <-. exists []. split; [symmetry; apply app_nil_r|]. intros ? ? [].
  - discriminate.
  - injection H as <-. exists [(q, Dir now)]. split; [reflexivity|].
    intros q' n [Hq|[]]. injection Hq as <-. reflexivity.
Qed.

Lemma filter_all_true {A} (f : A -> bool) l :
  (forall x, In x l -> f x = true) -> filter f l = l.
Proof.
  induction l as [|x l IH]; simpl; intros H; [reflexivity|].
  rewrite (H x (or_introl eq_refl)), IH; auto.
Qed.

Lemma rename_lookup_dst src dst t s :
  (forall q n, In (q, n) t -> is_prefix dst q = false) ->
  fs_lookup (rename_tree src dst t) (dst ++ s)%list = fs_lookup t (src ++ s)%list.
Proof.
  induction t as [|[q n] t IH]; simpl; intros Habs; [reflexivity|].
  rewrite IH by (intros q' n' H; exact (Habs q' n' (or_intror H))).
  destruct (strip_prefix src q) as [s'|] eqn:E; simpl.
  - apply strip_prefix_some in E as ->.
    destruct (path_eqb (dst ++ s) (dst ++ s'))%list eqn:E1;
      destruct (path_eqb (src ++ s) (src ++ s'))%list eqn:E2; try reflexivity.
    + apply path_eqb_iff, app_inv_head in E1 as ->.
      rewrite (proj2 (path_eqb_iff _ _) eq_refl) in E2. discriminate.
    + apply path_eqb_iff, app_inv_head in E2 as ->.
      rewrite (proj2 (path_eqb_iff _ _) eq_refl) in E1. discriminate.
  - destruct (path_eqb (dst ++ s) q)%list eqn:E1.
    + apply path_eqb_iff in E1. subst q.
      specialize (Habs _ n (or_introl eq_refl)). rewrite is_prefix_app in Habs. discriminate.
    + destruct (path_eqb (src ++ s) q)%list eqn:E2; [|reflexivity].
      apply path_eqb_iff in E2. subst q. rewrite strip_prefix_app in E. discriminate.
Qed.

Lemma rename_lookup_src src dst t s :
  is_prefix src dst = false ->
  (forall q n, In (q, n) t -> is_prefix dst q = false) ->
  fs_lookup (rename_tree src dst t) (src ++ s)%list = None.
Proof.
  intros Hsd. induction t as [|[q n] t IH]; simpl; intros Habs; [reflexivity|].
  rewrite IH by (intros q' n' H; exact (Habs q' n' (or_intror H))).
  destruct (strip_prefix src q) as [s'|] eqn:E; simpl.
  - apply strip_prefix_some in E as ->.
    destruct (path_eqb (src ++ s) (dst ++ s'))%list eqn:E1; [|reflexivity].
    apply path_eqb_iff, app_eq_app in E1 as [l [[-> _]|[-> _]]].
    + specialize (Habs _ n (or_introl eq_refl)).
      rewrite <- app_assoc, is_prefix_app in Habs. discriminate.
    + rewrite is_prefix_app in Hsd. discriminate.
  - destruct (path_eqb (src ++ s) q)%list eqn:E2; [|reflexivity].
    apply path_eqb_iff in E2. subst q. rewrite strip_prefix_app in E. discriminate.
Qed.



(** C9 (as amended): credential loading, in both scripts, fails exactly
    when the file is missing or unparsable, has no [auth] section, or one of
    [username] and [password] resolves to a plain value neither in [auth]
    nor in [DEFAULT] (a bad interpolation also fails).  Such a failure ends
    the run at once: the audit prints its error line and nothing else (no
    [find], no HTTP request, no CSV, no mail), and the adoption prints its
    error line, leaves the filesystem as it was, and issues no request. *)
Theorem credential_failure_aborts cfg :
  (forall t, (exists e, get_credentials cfg t = ([], t, inl e)) <-> cfg_loadable cfg = false) /\
  (forall t, (exists e, read_xnat_auth cfg t = ([], t, inl e)) <-> cfg_loadable cfg = false) /\
  (cfg_loadable cfg = false ->
   forall w local project url_arg inbox t, cred_file w = cfg ->
   adopt_main w local project url_arg inbox t = ([EvPrint MsgCredError], t, inr tt)) /\
  (cfg_loadable cfg = false ->
   forall w start_arg end_arg t, auth_file w = cfg ->
   audit_main w start_arg end_arg t = ([EvPrint MsgAuthError], t, inr tt)).
Proof.
  split; [|split; [|split]].
  - intros t. rewrite get_credentials_run, <- cred_result_loadable.
    split; intros [e He]; exists e; congruence.
  - intros t. rewrite read_xnat_auth_run, <- auth_result_loadable.
    split; intros [e He]; exists e; congruence.
  - intros Hl w local project url_arg inbox t Hw.
    apply cred_result_loadable in Hl as [e He].
    rewrite adopt_main_run, Hw, He. reflexivity.
  - intros Hl w start_arg end_arg t Hw.
    apply auth_result_loadable in Hl as [e He].
    unfold audit_main, bind at 1, try_with at 1, bind at 1.
    rewrite read_xnat_auth_run, Hw, He. reflexivity.
Qed.

(** ** Examples *)

(** C2, counterexample: the primary instance answers 500 for [Sess2]
    while the secondary knows it.  The failed lookup gives the same value
    as a 404, the row is counted as an orphan, and the mailed report says
    "1 orphans found out of 1 scans". *)
Lemma server_error_counted_as_orphan :
  lookup_result (GetResp 500 None) = lookup_result (GetResp 404 None) /\
  map row_orphan (result_rows (demo_find (GetResp 500 None) JAN15 JAN25)) = [true] /\
  In (EvMail JAN15 JAN25 (MsgOrphans 1 1) (Some CSV_FILENAME))
     (fst (fst (audit_main (demo_audit (GetResp 500 None)) (Some JAN15) (Some JAN25) demo_archive))).
Proof. split; [reflexivity|]. split; [vm_compute; reflexivity|]. in_trace. Qed.

(** C2, witness of the amended statement. *)
Lemma failed_lookup_same_as_404_witness :
  lookup_failed (GetResp 500 None) /\
  demo_net (GetResp 500 None) (query_url PRIMARY "ProjectA" "Sess2") = GetResp 500 None /\
  lookup_result (GetResp 500 None) = lookup_result (GetResp 404 None).
Proof.
  assert (Hfail : lookup_failed (GetResp 500 None)) by (left; lia).
  assert (Hresp : demo_net (GetResp 500 None) (query_url PRIMARY "ProjectA" "Sess2")
                  = GetResp 500 None) by (vm_compute; reflexivity).
  split; [exact Hfail|]. split; [exact Hresp|].
  exact (proj1 (failed_lookup_same_as_404 _ JAN15 JAN25 demo_archive _ _ _ Hfail Hresp)).
Defined.

(** C1, witness: the primary instance answers 404 for [Sess2], the
    secondary knows it; the session is an orphan. *)
Lemma primary_instance_decides_orphans_witness :
  find_sessions_and_metadata (demo_net (GetResp 404 None)) JAN15 JAN25 demo_archive
  = (fst (fst (demo_find (GetResp 404 None) JAN15 JAN25)), demo_archive,
     inr (result_rows (demo_find (GetResp 404 None) JAN15 JAN25))) /\
  nth_error XNAT_INSTANCES 0 = Some PRIMARY /\
  map row_orphan (result_rows (demo_find (GetResp 404 None) JAN15 JAN25)) = [true].
Proof.
  assert (Hrun : find_sessions_and_metadata (demo_net (GetResp 404 None)) JAN15 JAN25 demo_archive
                 = (fst (fst (demo_find (GetResp 404 None) JAN15 JAN25)), demo_archive,
                    inr (result_rows (demo_find (GetResp 404 None) JAN15 JAN25))))
    by (vm_compute; reflexivity).
  split; [exact Hrun|]. split.
  - exact (proj1 (primary_instance_decides_orphans _ _ _ _ _ _ _ Hrun)).
  - vm_compute. reflexivity.
Defined.

(** C10, witness: the secondary instance answers 200 with [{}] for [Sess2]. *)
Lemma falsy_body_counts_as_absent_witness :
  In (SECONDARY, "metadata_xnat") [(PRIMARY, "metadata_xnat2"); (SECONDARY, "metadata_xnat")] /\
  (200 <= 200 < 300)%Z /\ json_truthy (JObj []) = false /\
  answer_at (demo_net (GetResp 404 None)) (query_url SECONDARY "ProjectA" "Sess2")
    (GetResp 200 (Some (JObj []))) (query_url SECONDARY "ProjectA" "Sess2")
    = GetResp 200 (Some (JObj [])) /\
  find_sessions_and_metadata
    (answer_at (demo_net (GetResp 404 None)) (query_url SECONDARY "ProjectA" "Sess2")
       (GetResp 200 (Some (JObj [])))) JAN15 JAN25 demo_archive
  = find_sessions_and_metadata
      (answer_at (answer_at (demo_net (GetResp 404 None))
                    (query_url SECONDARY "ProjectA" "Sess2") (GetResp 200 (Some (JObj []))))
                 (query_url SECONDARY "ProjectA" "Sess2") (GetResp 404 None))
      JAN15 JAN25 demo_archive.
Proof.
  assert (Hi : In (SECONDARY, "metadata_xnat")
                 [(PRIMARY, "metadata_xnat2"); (SECONDARY, "metadata_xnat")])
    by (right; left; reflexivity).
  assert (H2 : (200 <= 200 < 300)%Z) by lia.
  assert (Hf : json_truthy (JObj []) = false) by reflexivity.
  assert (Hr : answer_at (demo_net (GetResp 404 None)) (query_url SECONDARY "ProjectA" "Sess2")
                 (GetResp 200 (Some (JObj []))) (query_url SECONDARY "ProjectA" "Sess2")
               = GetResp 200 (Some (JObj []))) by (vm_compute; reflexivity).
  split; [exact Hi|]. split; [exact H2|]. split; [exact Hf|]. split; [exact Hr|].
  exact (proj1 (falsy_body_counts_as_absent _ JAN15 JAN25 demo_archive _ _ _ _ _ _ Hi H2 Hf Hr)).
Defined.

(** C7, witness: a run where the primary lookup of [Sess2] fails. *)
Lemma every_row_has_all_instance_columns_witness :
  find_sessions_and_metadata (demo_net (GetResp 500 None)) JAN15 JAN25 demo_archive
  = (fst (fst (demo_find (GetResp 500 None) JAN15 JAN25)), demo_archive,
     inr (result_rows (demo_find (GetResp 500 None) JAN15 JAN25))) /\
  XNAT_INSTANCES = [PRIMARY; SECONDARY].
Proof.
  assert (Hrun : find_sessions_and_metadata (demo_net (GetResp 500 None)) JAN15 JAN25 demo_archive
                 = (fst (fst (demo_find (GetResp 500 None) JAN15 JAN25)), demo_archive,
                    inr (result_rows (demo_find (GetResp 500 None) JAN15 JAN25))))
    by (vm_compute; reflexivity).
  split; [exact Hrun|].
  exact (proj1 (every_row_has_all_instance_columns _ _ _ _ _ _ _ Hrun)).
Defined.







(** C8, witness: the archive root without projects. *)
Lemma empty_archive_raises_witness :
  glob_projects demo_empty_archive = [] /\
  fs_lookup demo_empty_archive (parse_path GLOB_PATTERN) = None /\
  query_sessions JAN15 JAN25 demo_empty_archive
  = ([EvFind [GLOB_PATTERN] JAN15 JAN25], demo_empty_archive, inl CalledProcessError).
Proof.
  assert (Hn : glob_projects demo_empty_archive = []) by (vm_compute; reflexivity).
  assert (Hl : fs_lookup demo_empty_archive (parse_path GLOB_PATTERN) = None)
    by (vm_compute; reflexivity).
  split; [exact Hn|]. split; [exact Hl|].
  exact (empty_archive_raises _ _ _ Hn Hl).
Defined.

(** C8: the exception leaves [main] of the audit, so no report is mailed. *)
Lemma empty_archive_audit_fails :
  audit_main (demo_audit (GetResp 404 None)) None None demo_empty_archive
  = ([EvFind [GLOB_PATTERN] (JAN25 - 7 * DAY) JAN25], demo_empty_archive,
     inl CalledProcessError).
Proof. vm_compute. reflexivity. Qed.

(** C4, witness: a run where the move succeeds and the import is refused. *)
Lemma import_only_after_move_witness :
  In (EvPost "http://localhost:8080/data/services/import?import-handler=inbox&cleanupAfterImport=true&PROJECT_ID=P&path=/inbox/P/D")
     (fst (fst (demo_adopt_run demo_local))) /\
  exists a b pre post,
    fst (fst (demo_adopt_run demo_local))
    = (pre ++ EvPost "http://localhost:8080/data/services/import?import-handler=inbox&cleanupAfterImport=true&PROJECT_ID=P&path=/inbox/P/D" :: post)%list /\
    In (EvMoved a b) pre.
Proof.
  assert (Hrun : demo_adopt_run demo_local
                 = (fst (fst (demo_adopt_run demo_local)), snd (fst (demo_adopt_run demo_local)),
                    snd (demo_adopt_run demo_local)))
    by (vm_compute; reflexivity).
  assert (Hpost : In (EvPost "http://localhost:8080/data/services/import?import-handler=inbox&cleanupAfterImport=true&PROJECT_ID=P&path=/inbox/P/D")
                     (fst (fst (demo_adopt_run demo_local)))) by in_trace.
  split; [exact Hpost|].
  destruct (import_only_after_move _ _ _ _ _ _ _ _ _ _ Hrun Hpost)
    as [c [t1 [t2 [a [b [_ [_ [_ [pre [post [Hev Hin]]]]]]]]]]].
  exists a, b, pre, post. split; [exact Hev|exact Hin].
Defined.

(** Adopting [/home/D] when [/inbox/P/D] exists already, observed at the
    files: [shutil.move] puts [D] inside it, at [/inbox/P/D/D], so
    [/inbox/P/D/f] does not exist, and the failure line of the refused import carries the
    status and the body but no path. *)
Lemma existing_destination_nests :
  fs_lookup (snd (fst (demo_adopt_run demo_local_taken))) ["inbox"; "P"; "D"; "f"] = None /\
  fs_lookup (snd (fst (demo_adopt_run demo_local_taken))) ["inbox"; "P"; "D"; "D"; "f"]
    = Some (File 1) /\
  last (fst (fst (demo_adopt_run demo_local_taken))) (EvPrint MsgCredError)
    = EvPrint (MsgImportFailed 500 "boom").
Proof. split; [|split]; vm_compute; reflexivity. Qed.


(** C9, counterexample: [username] and [password] only in [DEFAULT] and
    an [auth] section without them; both scripts load the credentials. *)
Lemma defaults_fill_missing_keys :
  demo_cfg_defaults
    = CfgParsed [("username", CVal "alice"); ("password", CVal "secret")] [("auth", [])] /\
  get_credentials demo_cfg_defaults [] = ([], [], inr ("alice", "secret")) /\
  read_xnat_auth demo_cfg_defaults [] = ([], [], inr ("alice", "secret")).
Proof. split; [reflexivity|]. split; vm_compute; reflexivity. Qed.

(** * Further properties of the code *)

(** ** Enumeration: the window and the exit status *)


Lemma find_run_snd_cons t s e sp r :
  snd (find_run t s e (sp :: r)) = snd (find_start t s e sp) && snd (find_run t s e r).
Proof.
  simpl. destruct (find_start t s e sp) as [o1 k1]. destruct (find_run t s e r) as [o2 k2].
  reflexivity.
Qed.


Lemma find_start_fst t s e sp :
  fst (find_start t s e sp) =
  match fs_lookup t (parse_path sp) with
  | Some (Dir _) =>
      map (fun '(c, _) => sp ++ "/" ++ c)
          (filter (fun '(_, n) => find_test s e n) (fs_children t (parse_path sp)))
  | _ => []
  end.
Proof. unfold find_start. destruct (fs_lookup t (parse_path sp)) as [[m|m]|]; reflexivity. Qed.



Lemma find_test_empty s e n : (e <= s)%Z -> find_test s e n = false.
Proof.
  intros He. unfold find_test, newermt.
  destruct (is_dir n); simpl; [|reflexivity].
  destruct (Z.ltb_spec s (node_mtime n)), (Z.ltb_spec e (node_mtime n)); simpl;
    try reflexivity; exfalso; lia.
Qed.





Lemma find_start_empty t s e sp : (e <= s)%Z -> fst (find_start t s e sp) = [].
Proof.
  intros He. rewrite find_start_fst.
  destruct (fs_lookup t (parse_path sp)) as [[mt|mt]|]; try reflexivity.
  induction (fs_children t (parse_path sp)) as [|[c n] l IH]; [reflexivity|].
  simpl. rewrite find_test_empty by exact He. exact IH.
Qed.

Lemma find_run_all_ok t s e sps :
  (forall sp, In sp sps -> fs_lookup t (parse_path sp) <> None) ->
  snd (find_run t s e sps) = true.
Proof.
  induction sps as [|sp r IH]; intros H; [reflexivity|].
  rewrite find_run_snd_cons, IH by (intros sp' Hin; apply H; right; exact Hin).
  unfold find_start. destruct (fs_lookup t (parse_path sp)) as [[m|m]|] eqn:E;
    try reflexivity.
  exfalso. exact (H sp (or_introl eq_refl) E).
Qed.


(** A window whose end is not after its start lists no directory (when
    [find] succeeds). *)
Theorem empty_window_no_sessions t s e w t' d
  (He : (e <= s)%Z) (Hrun : query_sessions s e t = (w, t', inr d)) :
  d = [].
Proof.
  unfold query_sessions, bind, get_fs, emit in Hrun. simpl in Hrun.
  assert (Hl : forall sps, fst (find_run t s e sps) = []).
  { intros sps. rewrite find_run_fst. induction sps as [|sp r IH]; [reflexivity|].
    simpl. rewrite find_start_empty by exact He. exact IH. }
  specialize (Hl (glob_arc001 t)).
  destruct (find_run t s e (glob_arc001 t)) as [lines ok]. simpl in Hl. subst lines.
  destruct ok; simpl in Hrun; [|discriminate].
  injection Hrun as _ _ <-. reflexivity.
Qed.



(** ** Lookups *)

(** [query_xnat_metadata] never raises: it issues one GET for the URL of
    the instance, project and session, prints at most one line, leaves the
    filesystem unchanged, and returns the parsed body exactly when the
    status is outside 400-599 and the body is JSON. *)
Theorem query_xnat_metadata_never_raises sess base p l t :
  exists log,
    query_xnat_metadata sess base p l t
    = (EvGet (query_url base p l) :: log, t,
       inr (lookup_result (sess (query_url base p l)))) /\
    (length log <= 1)%nat /\
    (forall j, lookup_result (sess (query_url base p l)) = Some j <->
               exists st, sess (query_url base p l) = GetResp st (Some j) /\
                          ~ (400 <= st < 600)%Z).
Proof.
  exists (lookup_log (query_url base p l) (sess (query_url base p l))).
  split; [apply query_xnat_metadata_run|].
  unfold lookup_log, lookup_result.
  destruct (sess (query_url base p l)) as [st [j|]|ex]; split.
  - destruct ((400 <=? st) && (st <? 600))%Z; [destruct (st =? 404)%Z|]; simpl; lia.
  - intros j'. destruct ((400 <=? st) && (st <? 600))%Z eqn:E.
    + apply error_range_true in E. split; [discriminate|].
      intros [st' [Hq Hn]]. injection Hq as <- _. contradiction.
    + split.
      * intros Hj. injection Hj as <-. exists st. split; [reflexivity|].
        intros Hr. apply error_range_true in Hr. congruence.
      * intros [st' [Hq _]]. injection Hq as _ <-. reflexivity.
  - destruct ((400 <=? st) && (st <? 600))%Z; [destruct (st =? 404)%Z|]; simpl; lia.
  - intros j'. split; [discriminate|]. intros [st' [Hq _]]. discriminate.
  - simpl. lia.
  - intros j'. split; [discriminate|]. intros [st' [Hq _]]. discriminate.
Qed.

(** [query_xnat_metadata] issues its GET and prints nothing else exactly
    when the instance answers 404 or answers a status outside 400-599 with
    a JSON body; every other answer is reported by a printed line. *)
Theorem lookup_silent_iff sess base p l t :
  fst (fst (query_xnat_metadata sess base p l t)) = [EvGet (query_url base p l)] <->
  (exists b, sess (query_url base p l) = GetResp 404 b) \/
  (exists st j, sess (query_url base p l) = GetResp st (Some j) /\ ~ (400 <= st < 600)%Z).
Proof.
  rewrite query_xnat_metadata_run. simpl.
  transitivity (lookup_log (query_url base p l) (sess (query_url base p l)) = []);
    [split; [intros H; injection H as H; exact H|intros ->; reflexivity]|].
  unfold lookup_log.
  destruct (sess (query_url base p l)) as [st b|ex].
  - destruct ((400 <=? st) && (st <? 600))%Z eqn:E.
    + apply error_range_true in E.
      destruct (Z.eqb_spec st 404) as [->|Hn].
      * split; [intros _; left; exists b; reflexivity|reflexivity].
      * split; [discriminate|].
        intros [[b' Hq]|[st' [j [Hq Hr]]]]; injection Hq; intros; subst; contradiction.
    + assert (Hr : ~ (400 <= st < 600)%Z)
        by (intros Hr; apply error_range_true in Hr; congruence).
      destruct b as [j|].
      * split; [intros _; right; exists st, j; split; [reflexivity|exact Hr]|reflexivity].
      * split; [discriminate|].
        intros [[b' Hq]|[st' [j [Hq _]]]]; injection Hq; intros; subst;
          try discriminate; exfalso; apply Hr; lia.
  - split; [discriminate|]. intros [[b' Hq]|[st' [j [Hq _]]]]; discriminate.
Qed.

(** ** Requests and reports *)

Lemma query_sessions_log s e t :
  fst (fst (query_sessions s e t)) = [EvFind (glob_arc001 t) s e].
Proof.
  unfold query_sessions, bind, get_fs, emit.
  destruct (find_run t s e (glob_arc001 t)) as [lines ok]. destruct ok; reflexivity.
Qed.

Lemma get_urls_app a b : get_urls (a ++ b)%list = (get_urls a ++ get_urls b)%list.
Proof. unfold get_urls. apply flat_map_app. Qed.

Lemma get_urls_lookup_log u r : get_urls (lookup_log u r) = [].
Proof.
  unfold lookup_log. destruct r as [st [j|]|ex]; [| |reflexivity];
    destruct ((400 <=? st) && (st <? 600))%Z; try destruct (st =? 404)%Z; reflexivity.
Qed.

Lemma get_urls_row_log t sess d :
  get_urls (row_log t sess d) =
  [query_url PRIMARY (row_project d) (row_session d);
   query_url SECONDARY (row_project d) (row_session d)].
Proof.
  unfold row_log. rewrite !get_urls_app.
  change (get_urls (EvGet ?u :: ?l)) with (u :: get_urls l).
  rewrite !get_urls_lookup_log.
  destruct (fs_lookup t (parse_path d)); reflexivity.
Qed.

Lemma get_urls_rows t sess dirs :
  get_urls (flat_map (row_log t sess) dirs) =
  flat_map (fun d => [query_url PRIMARY (row_project d) (row_session d);
                      query_url SECONDARY (row_project d) (row_session d)]) dirs.
Proof.
  induction dirs as [|d r IH]; [reflexivity|].
  simpl flat_map. rewrite get_urls_app, IH, get_urls_row_log. reflexivity.
Qed.

Lemma mail_events_app a b : mail_events (a ++ b)%list = (mail_events a ++ mail_events b)%list.
Proof. unfold mail_events. apply filter_app. Qed.

Lemma mail_events_lookup_log u r : mail_events (lookup_log u r) = [].
Proof.
  unfold lookup_log. destruct r as [st [j|]|ex]; [| |reflexivity];
    destruct ((400 <=? st) && (st <? 600))%Z; try destruct (st =? 404)%Z; reflexivity.
Qed.

Lemma mail_events_rows t sess dirs : mail_events (flat_map (row_log t sess) dirs) = [].
Proof.
  induction dirs as [|d r IH]; [reflexivity|].
  simpl flat_map. rewrite mail_events_app, IH. unfold row_log.
  rewrite !mail_events_app.
  change (mail_events (EvGet ?u :: ?l)) with (mail_events l).
  rewrite !mail_events_lookup_log.
  destruct (fs_lookup t (parse_path d)); reflexivity.
Qed.

Lemma mail_events_find sess s e t wf t' r :
  find_sessions_and_metadata sess s e t = (wf, t', r) -> mail_events wf = [].
Proof.
  rewrite find_sessions_run.
  pose proof (query_sessions_log s e t) as Hl.
  destruct (query_sessions s e t) as [[w0 t0] [ex|dirs]]; simpl in Hl; subst w0;
    intros H; injection H as <- _ _; [reflexivity|].
  exact (mail_events_rows _ _ _).
Qed.

(** [find_sessions_and_metadata] issues exactly two GETs per session
    directory found, the primary instance's then the secondary's, for the
    project and label read off the path, in the order [find] listed the
    directories, and returns one row per directory. *)
Theorem find_sessions_two_gets_per_session sess s e t w t' rows
  (Hrun : find_sessions_and_metadata sess s e t = (w, t', inr rows)) :
  exists dirs,
    snd (query_sessions s e t) = inr dirs /\ length rows = length dirs /\
    get_urls w =
    flat_map (fun d => [query_url PRIMARY (row_project d) (row_session d);
                        query_url SECONDARY (row_project d) (row_session d)]) dirs.
Proof.
  destruct (find_sessions_rows sess s e t w t' rows Hrun) as [w0 [dirs [Hq [_ Hrows]]]].
  exists dirs. rewrite Hq. split; [reflexivity|]. split; [subst rows; apply length_map|].
  pose proof (query_sessions_log s e t) as Hl. rewrite Hq in Hl. simpl in Hl. subst w0.
  rewrite find_sessions_run, Hq in Hrun. injection Hrun as <- _ _.
  exact (get_urls_rows _ _ _).
Qed.

(** Once the credentials load and the enumeration succeeds, the audit
    completes and sends exactly one mail: "no scans" without attachment
    when no session was found, otherwise the orphan count (or "no
    orphans") with the CSV file attached, whether or not writing the CSV
    succeeded. *)
Theorem audit_sends_one_report w sa ea t a wf t' rows
  (Hauth : auth_result (auth_file w) = inr a)
  (Hfind : find_sessions_and_metadata (net w a)
             (match sa with Some d => d | None => (today w - 7 * DAY)%Z end)
             (match ea with Some d => d | None => today w end) t = (wf, t', inr rows)) :
  let s := match sa with Some d => d | None => (today w - 7 * DAY)%Z end in
  let e := match ea with Some d => d | None => today w end in
  exists evs,
    audit_main w sa ea t = (evs, t', inr tt) /\
    mail_events evs =
    [match rows with
     | [] => EvMail s e (MsgNoScans s e) None
     | _ => EvMail s e (if (0 <? num_orphans rows)%nat
                        then MsgOrphans (num_orphans rows) (length rows)
                        else MsgNoOrphans (length rows)) (Some CSV_FILENAME)
     end].
Proof.
  intros s e. pose proof (mail_events_find _ _ _ _ _ _ _ Hfind) as Hm.
  unfold audit_main. cbv delta [bind try_with ret] beta iota zeta.
  rewrite read_xnat_auth_run, Hauth. cbv beta iota zeta.
  rewrite Hfind. cbv delta [send_email print emit] beta iota zeta.
  destruct rows as [|r rows];
    [|destruct (csv_ok w), (0 <? num_orphans (r :: rows))%nat];
    destruct (mail_ok w); cbv beta iota;
    (eexists; split; [reflexivity|]);
    rewrite !mail_events_app, Hm; reflexivity.
Qed.

(** An exception that escapes the audit comes out of [query_sessions]:
    the credentials were loaded, [query_sessions] raised it, and nothing
    else happened (no request, no CSV, no mail): the run's effects are
    those of [query_sessions] alone, which runs [find] over the globbed
    starting points and leaves the filesystem unchanged. *)
Theorem audit_raises_only_from_find w sa ea t evs t' ex
  (Hrun : audit_main w sa ea t = (evs, t', inl ex)) :
  let s := match sa with Some d => d | None => (today w - 7 * DAY)%Z end in
  let e := match ea with Some d => d | None => today w end in
  (exists a, auth_result (auth_file w) = inr a) /\
  query_sessions s e t = (evs, t, inl ex) /\ t' = t /\
  evs = [EvFind (glob_arc001 t) s e].
Proof.
  intros s e.
  unfold audit_main in Hrun. cbv delta [bind try_with ret] beta iota zeta in Hrun.
  rewrite read_xnat_auth_run in Hrun.
  destruct (auth_result (auth_file w)) as [ea'|a]; [discriminate|].
  cbv beta iota zeta in Hrun.
  change (match sa with Some d => d | None => (today w - 7 * DAY)%Z end) with s in Hrun.
  change (match ea with Some d => d | None => today w end) with e in Hrun.
  destruct (find_sessions_and_metadata (net w a) s e t) as [[wf tf] [exf|rows]] eqn:Hf.
  - destruct (find_sessions_error _ _ _ _ _ _ _ Hf) as [w0 Hq].
    rewrite find_sessions_run, Hq in Hf. injection Hf as Hw Ht. subst wf tf.
    injection Hrun as Hevs Ht' Hex. subst evs t' ex.
    pose proof (query_sessions_log s e t) as Hl. rewrite Hq in Hl. simpl in Hl.
    subst w0. repeat split; eauto.
  - exfalso. destruct rows as [|r rows].
    + cbv delta [send_email print emit bind] beta iota zeta in Hrun.
      destruct (mail_ok w); cbv beta iota zeta in Hrun; discriminate.
    + cbv delta [send_email print emit bind] beta iota zeta in Hrun.
      destruct (csv_ok w), (0 <? num_orphans (r :: rows))%nat, (mail_ok w);
        cbv beta iota zeta in Hrun; discriminate.
Qed.

(** The two scripts load the same credentials: [read_xnat_auth] and
    [get_credentials] succeed on the same configuration files and return
    the same username and password. *)
Theorem credential_loaders_agree cfg c :
  auth_result cfg = inr c <-> cred_result cfg = inr c.
Proof.
  unfold auth_result, cred_result, read_xnat_auth, get_credentials, bind, ret, raise.
  destruct cfg as [| |d secs]; [split; discriminate|split; discriminate|].
  destruct (assoc "auth" secs) as [sec|]; [|split; discriminate].
  destruct (section_get d sec "username") as [[u|]|]; [|split; discriminate|split; discriminate].
  destruct (section_get d sec "password") as [[p|]|]; simpl;
    first [reflexivity | split; discriminate].
Qed.

(** ** Creating the inbox directory *)

Lemma makedirs_unfold now p t :
  makedirs now p t =
  match fold_left (makedirs_step now) (prefixes p) (Some t) with
  | Some t' => ([EvMakedirs p], t', inr tt)
  | None => ([EvMakedirs p], t, inl (OSError "makedirs"))
  end.
Proof.
  unfold makedirs, bind, emit, get_fs, put_fs, raise. simpl.
  change (fold_left _ (prefixes p) (Some t))
    with (fold_left (makedirs_step now) (prefixes p) (Some t)).
  destruct (fold_left (makedirs_step now) (prefixes p) (Some t)); reflexivity.
Qed.

Lemma fs_lookup_app_none (t e : fs) x :
  fs_lookup t x = None -> fs_lookup (t ++ e)%list x = fs_lookup e x.
Proof.
  induction t as [|[q m] t IH]; simpl; [reflexivity|].
  destruct (path_eqb x q); [discriminate|exact IH].
Qed.

Lemma makedirs_step_extends now t1 q t2 :
  makedirs_step now (Some t1) q = Some t2 ->
  exists e, t2 = (t1 ++ e)%list /\ forall q' n, In (q', n) e -> q' = q /\ n = Dir now.
Proof.
  unfold makedirs_step. destruct (fs_lookup t1 q) as [[m|m]|]; intros H; try discriminate.
  - injection H as <-. exists []. rewrite app_nil_r. split; [reflexivity|contradiction].
  - injection H as <-. exists [(q, Dir now)]. split; [reflexivity|].
    intros q' n [Hq|[]]. injection Hq as <- <-. auto.
Qed.

Lemma makedirs_step_dir now t1 q t2 :
  makedirs_step now (Some t1) q = Some t2 -> exists m, fs_lookup t2 q = Some (Dir m).
Proof.
  unfold makedirs_step. destruct (fs_lookup t1 q) as [[m|m]|] eqn:E; intros H; try discriminate.
  - injection H as <-. eauto.
  - injection H as <-. exists now. rewrite fs_lookup_app_none by exact E. simpl.
    rewrite (proj2 (path_eqb_iff q q) eq_refl). reflexivity.
Qed.

Lemma makedirs_fold_extends now l t0 t' :
  fold_left (makedirs_step now) l (Some t0) = Some t' ->
  exists e, t' = (t0 ++ e)%list /\ forall q n, In (q, n) e -> In q l /\ n = Dir now.
Proof.
  revert t0. induction l as [|x l IH]; cbn -[makedirs_step]; intros t0 H.
  - injection H as <-. exists []. rewrite app_nil_r. split; [reflexivity|contradiction].
  - destruct (makedirs_step now (Some t0) x) as [t2|] eqn:Es.
    + destruct (makedirs_step_extends _ _ _ _ Es) as [e1 [-> He1]].
      destruct (IH _ H) as [e2 [-> He2]].
      exists (e1 ++ e2)%list. split; [symmetry; apply app_assoc|].
      intros q n Hin. apply in_app_or in Hin as [Hin|Hin].
      * destruct (He1 _ _ Hin) as [-> ->]. auto.
      * destruct (He2 _ _ Hin) as [Hq ->]. auto.
    + rewrite fold_none in H by reflexivity. discriminate.
Qed.

Lemma makedirs_fold_dirs now l t0 t' :
  fold_left (makedirs_step now) l (Some t0) = Some t' ->
  forall q, In q l -> exists m, fs_lookup t' q = Some (Dir m).
Proof.
  revert t0. induction l as [|x l IH]; cbn -[makedirs_step]; intros t0 H q Hq; [contradiction|].
  destruct (makedirs_step now (Some t0) x) as [t2|] eqn:Es.
  - destruct Hq as [<-|Hq]; [|exact (IH _ H q Hq)].
    destruct (makedirs_step_dir _ _ _ _ Es) as [m Hm].
    destruct (makedirs_fold_extends _ _ _ _ H) as [e [-> _]].
    exists m. apply fs_lookup_app_some. exact Hm.
  - rewrite fold_none in H by reflexivity. discriminate.
Qed.

Lemma fs_lookup_app_file (t e : fs) q m :
  (forall q' n, In (q', n) e -> exists m', n = Dir m') ->
  fs_lookup (t ++ e)%list q = Some (File m) -> fs_lookup t q = Some (File m).
Proof.
  intros He H. destruct (fs_lookup t q) as [n|] eqn:E.
  - rewrite (fs_lookup_app_some t e q n E) in H. exact H.
  - rewrite fs_lookup_app_none in H by exact E.
    apply fs_lookup_in_fs in H. destruct (He _ _ H) as [m' Hm']. discriminate.
Qed.

Lemma makedirs_fold_none now l t0 :
  fold_left (makedirs_step now) l (Some t0) = None <->
  exists q m, In q l /\ fs_lookup t0 q = Some (File m).
Proof.
  revert t0. induction l as [|x l IH]; cbn -[makedirs_step]; intros t0.
  - split; [discriminate|]. intros [q [m [[] _]]].
  - destruct (makedirs_step now (Some t0) x) as [t2|] eqn:Es.
    + destruct (makedirs_step_extends _ _ _ _ Es) as [e [-> He]].
      assert (Hd : forall q' n, In (q', n) e -> exists m', n = Dir m')
        by (intros q' n Hin; destruct (He _ _ Hin) as [_ ->]; eauto).
      assert (Hx : forall m, fs_lookup t0 x <> Some (File m)).
      { intros m Hm. unfold makedirs_step in Es. rewrite Hm in Es. discriminate. }
      rewrite IH. split.
      * intros [q [m [Hq Hm]]]. exists q, m. split; [right; exact Hq|].
        exact (fs_lookup_app_file _ _ _ _ Hd Hm).
      * intros [q [m [[<-|Hq] Hm]]]; [exfalso; exact (Hx m Hm)|].
        exists q, m. split; [exact Hq|]. apply fs_lookup_app_some. exact Hm.
    + split; [intros _|intros _; apply fold_none; reflexivity].
      unfold makedirs_step in Es.
      destruct (fs_lookup t0 x) as [[m|m]|] eqn:E; try discriminate.
      exists x, m. auto.
Qed.

Lemma makedirs_fold_exists now l t1 :
  (forall q, In q l -> exists m, fs_lookup t1 q = Some (Dir m)) ->
  fold_left (makedirs_step now) l (Some t1) = Some t1.
Proof.
  induction l as [|x l IH]; cbn -[makedirs_step]; intros H; [reflexivity|].
  destruct (H x (or_introl eq_refl)) as [m Hm].
  unfold makedirs_step at 2. rewrite Hm. apply IH. intros q Hq. exact (H q (or_intror Hq)).
Qed.

(** When [os.makedirs] succeeds, every prefix of the path (the path
    itself included) is a directory, every entry that existed is kept as
    it was, and the only new entries are the missing prefixes, created as
    directories stamped with the current time. *)
Theorem makedirs_creates_path now p t w t1
  (Hrun : makedirs now p t = (w, t1, inr tt)) :
  (forall q, In q (prefixes p) -> exists m, fs_lookup t1 q = Some (Dir m)) /\
  (forall q n, fs_lookup t q = Some n -> fs_lookup t1 q = Some n) /\
  (forall q n, fs_lookup t q = None -> fs_lookup t1 q = Some n ->
               In q (prefixes p) /\ n = Dir now).
Proof.
  rewrite makedirs_unfold in Hrun.
  destruct (fold_left (makedirs_step now) (prefixes p) (Some t)) as [t2|] eqn:E;
    [|discriminate].
  injection Hrun as _ <-.
  destruct (makedirs_fold_extends _ _ _ _ E) as [e [Ht2 He]].
  split; [exact (makedirs_fold_dirs _ _ _ _ E)|]. subst t2. split.
  - intros q n Hq. apply fs_lookup_app_some. exact Hq.
  - intros q n Hq Hn. rewrite fs_lookup_app_none in Hn by exact Hq.
    exact (He _ _ (fs_lookup_in_fs _ _ _ Hn)).
Qed.

(* In the model, where every directory is writable, [makedirs] raises
   exactly when some prefix of the path is a file. *)
Lemma makedirs_raises_iff now p t :
  makedirs now p t = ([EvMakedirs p], t, inl (OSError "makedirs")) <->
  exists q m, In q (prefixes p) /\ fs_lookup t q = Some (File m).
Proof.
  rewrite makedirs_unfold, <- (makedirs_fold_none now).
  destruct (fold_left (makedirs_step now) (prefixes p) (Some t)); split; intros H; congruence.
Qed.

(** When some prefix of the path (the path itself included) is a file,
    [os.makedirs(path, exist_ok=True)] raises and leaves the filesystem
    unchanged. *)
Theorem makedirs_fails_on_file_prefix now p t q m
  (Hq : In q (prefixes p)) (Hfile : fs_lookup t q = Some (File m)) :
  makedirs now p t = ([EvMakedirs p], t, inl (OSError "makedirs")).
Proof.
  apply makedirs_raises_iff. exists q, m. split; assumption.
Qed.

(** [exist_ok=True]: running [os.makedirs] again on the filesystem it
    produced succeeds and changes nothing, whatever the time. *)
Theorem makedirs_idempotent now now' p t w t1
  (Hrun : makedirs now p t = (w, t1, inr tt)) :
  makedirs now' p t1 = ([EvMakedirs p], t1, inr tt).
Proof.
  destruct (makedirs_creates_path _ _ _ _ _ Hrun) as [Hdirs _].
  rewrite makedirs_unfold, makedirs_fold_exists by exact Hdirs. reflexivity.
Qed.

(** ** Adoption edge cases *)

(** A local directory that does not exist (and is not created by
    [os.makedirs] as part of the inbox path) ends the adoption after the
    inbox directory has been created: [shutil.move] raises, the move error
    is printed, nothing is moved and no import request is sent. *)
Theorem adopt_missing_source w local project url_arg inbox t c w1 t1
  (Hc : cred_result (cred_file w) = inr c)
  (Hmk : makedirs (now w) (inbox ++ [project])%list t = (w1, t1, inr tt))
  (Hloc : fs_lookup t local = None)
  (Hnp : ~ In local (prefixes (inbox ++ [project])%list)) :
  adopt_main w local project url_arg inbox t
  = ([EvMakedirs (inbox ++ [project])%list; EvPrint MsgMoveError], t1, inr tt).
Proof.
  assert (Hloc1 : fs_lookup t1 local = None).
  { destruct (fs_lookup t1 local) as [n|] eqn:E; [|reflexivity].
    destruct (makedirs_creates_path _ _ _ _ _ Hmk) as [_ [_ Hnew]].
    destruct (Hnew _ _ Hloc E) as [Hin _]. contradiction. }
  destruct (makedirs_events (now w) (inbox ++ [project])%list t) as [t1' [r' Hm']].
  rewrite Hmk in Hm'. injection Hm' as -> _ _.
  rewrite adopt_main_run, Hc. cbv zeta. rewrite Hmk.
  unfold shutil_move, bind at 1, get_fs. simpl. rewrite Hloc1. reflexivity.
Qed.

(** C5 (a defect of the code): when the destination
    [inbox_base/project/name] already exists as a directory (and is not the
    local directory itself), [shutil.move] nests the local directory one
    level deeper, at [destination/name], instead of placing it at the
    destination; the original path is emptied, while the printed message
    and the import request still name the destination. *)
Theorem adopt_existing_destination_nests w local project url_arg inbox t evs t' r m
  (Hname : last_comp local <> "")
  (Hdir : fs_lookup t (dest_inbox_dir inbox project local) = Some (Dir m))
  (Hne : local <> dest_inbox_dir inbox project local)
  (Habs : forall q n, In (q, n) t ->
            is_prefix (dest_inbox_dir inbox project local ++ [last_comp local])%list q = false)
  (Hrun : adopt_main w local project url_arg inbox t = (evs, t', r))
  (Hmoved : In (EvPrint (MsgMoved (path_str local) (path_str (dest_inbox_dir inbox project local)))) evs) :
  (forall s n, fs_lookup t (local ++ s)%list = Some n ->
     fs_lookup t' (dest_inbox_dir inbox project local ++ last_comp local :: s)%list = Some n) /\
  (forall s, fs_lookup t' (local ++ s)%list = None) /\
  In (EvMoved local (dest_inbox_dir inbox project local ++ [last_comp local])%list) evs /\
  exists c, cred_result (cred_file w) = inr c /\
    In (EvPost (import_api_url (rstrip_by is_slash url_arg) project
                  (dest_inbox_dir inbox project local))) evs.
Proof.
  assert (Hdest : dest_inbox_dir inbox project local = (inbox ++ [project; last_comp local])%list).
  { unfold dest_inbox_dir. destruct (String.eqb_spec (last_comp local) ""); [contradiction|].
    rewrite <- app_assoc. reflexivity. }
  set (dest := dest_inbox_dir inbox project local) in *.
  set (real := (dest ++ [last_comp local])%list) in *.
  rewrite adopt_main_run in Hrun. fold dest in Hrun.
  destruct (cred_result (cred_file w)) as [e|c] eqn:Ec.
  { injection Hrun as <- _ _. destruct Hmoved as [H|[]]. discriminate. }
  cbv zeta in Hrun.
  destruct (makedirs_events (now w) (inbox ++ [project])%list t) as [t1 [rm Hm]].
  rewrite Hm in Hrun.
  destruct rm as [e|[]].
  { injection Hrun as <- _ _. destruct Hmoved as [H|[]]. discriminate. }
  destruct (makedirs_creates_path _ _ _ _ _ Hm) as [_ [Hkeep _]].
  assert (Habs1 : forall q n, In (q, n) t1 -> is_prefix real q = false).
  { destruct (makedirs_extends _ _ _ _ _ Hm) as [ex [-> Hex]].
    intros q n Hin. apply in_app_or in Hin as [Hin|Hin]; [exact (Habs _ _ Hin)|].
    destruct (prefixes_prefix _ _ (Hex _ _ Hin)) as [s1 Hs1].
    destruct (is_prefix real q) eqn:Ep; [|reflexivity].
    apply is_prefix_true in Ep as [s2 ->]. unfold real in Hs1. rewrite Hdest in Hs1.
    apply (f_equal (@length string)) in Hs1. rewrite !length_app in Hs1. simpl in Hs1. lia. }
  assert (Hfree : fs_lookup t1 real = None).
  { destruct (fs_lookup t1 real) as [n|] eqn:E; [|reflexivity].
    apply fs_lookup_in_fs in E. specialize (Habs1 _ _ E).
    pose proof (is_prefix_app real []) as Hp. rewrite app_nil_r in Hp. congruence. }
  assert (Hdrop : drop_under real t1 = t1).
  { apply filter_all_true. intros [q n] Hin. rewrite (Habs1 _ _ Hin). reflexivity. }
  assert (Hneq : path_eqb local dest = false).
  { destruct (path_eqb local dest) eqn:E; [|reflexivity]. apply path_eqb_iff in E. contradiction. }
  pose proof (shutil_move_events (move_fault w) local dest t1) as Hs.
  destruct (shutil_move (move_fault w) local dest t1) as [[wm t2] rs] eqn:Es.
  destruct Hs as [[-> _]|[ex [-> ->]]];
    [|injection Hrun as <- _ _; simpl in Hmoved; destruct Hmoved as [H|[H|[]]]; discriminate].
  unfold shutil_move, bind at 1, get_fs in Es. simpl in Es.
  rewrite (Hkeep _ _ Hdir), Hneq in Es. fold real in Es.
  destruct (fs_lookup t1 local) as [sn|] eqn:Eloc; [|discriminate].
  rewrite Hfree in Es.
  unfold do_rename, bind, get_fs in Es. simpl in Es.
  destruct (is_prefix local real) eqn:Hsd; [discriminate|].
  destruct (move_fault w) as [tf|]; [unfold bind, put_fs, raise in Es; discriminate|].
  unfold bind, put_fs, emit in Es. simpl in Es.
  injection Es as <- <-. rewrite Hdrop in Hrun.
  injection Hrun as <- <- _.
  split; [|split; [|split]].
  - intros s n Hn.
    replace (dest ++ last_comp local :: s)%list with (real ++ s)%list
      by (unfold real; rewrite <- app_assoc; reflexivity).
    rewrite rename_lookup_dst by exact Habs1.
    destruct (makedirs_extends _ _ _ _ _ Hm) as [ex [-> _]].
    apply fs_lookup_app_some. exact Hn.
  - intros s. apply rename_lookup_src; assumption.
  - right. left. reflexivity.
  - exists c. split; [reflexivity|]. simpl. right. right. right. left. reflexivity.
Qed.

(** ** The columns of a row *)











(** ** Further properties of the two mains *)

(** An exception that escapes the adoption comes out of
    [os.makedirs(inbox_base/project)]: the credentials had been read, and
    the run's effects and final state are those of [os.makedirs] alone;
    nothing was moved and no request was sent. *)
Theorem adopt_raises_only_from_makedirs w local project url_arg inbox t evs t' ex
  (Hrun : adopt_main w local project url_arg inbox t = (evs, t', inl ex)) :
  (exists c, cred_result (cred_file w) = inr c) /\
  makedirs (now w) (inbox ++ [project])%list t = (evs, t', inl ex) /\
  evs = [EvMakedirs (inbox ++ [project])%list].
Proof.
  rewrite adopt_main_run in Hrun.
  destruct (cred_result (cred_file w)) as [e|c]; [discriminate|].
  cbv zeta in Hrun.
  destruct (makedirs (now w) (inbox ++ [project])%list t) as [[w1 t1] [e|[]]] eqn:Hm.
  - injection Hrun as Hevs Ht' Hex. subst evs t' ex.
    pose proof Hm as Hm'. rewrite makedirs_unfold in Hm'.
    destruct (fold_left (makedirs_step (now w)) (prefixes (inbox ++ [project])%list) (Some t));
      [discriminate|].
    injection Hm' as Hw1 _ _. subst w1.
    split; [eauto|]. split; reflexivity.
  - destruct (shutil_move (move_fault w) local (dest_inbox_dir inbox project local) t1)
      as [[wm t2] [e|[]]]; discriminate.
Qed.

Lemma rstrip_trailing f s u : all_by f u = true -> rstrip_by f (s ++ u) = rstrip_by f s.
Proof.
  intros Hu. induction s as [|x s IH]; simpl.
  - exact (rstrip_all f u Hu).
  - rewrite IH. reflexivity.
Qed.

(** [--xnat-url] is used with its trailing slashes removed: adding
    slashes at its end changes nothing in the run. *)
Theorem adopt_url_trailing_slashes w local project url_arg slashes inbox t
  (Hsl : all_by is_slash slashes = true) :
  adopt_main w local project (url_arg ++ slashes) inbox t
  = adopt_main w local project url_arg inbox t.
Proof. rewrite !adopt_main_run, rstrip_trailing by exact Hsl. reflexivity. Qed.

Lemma find_log_kinds sess s e t wf t' r ev :
  find_sessions_and_metadata sess s e t = (wf, t', r) -> In ev wf ->
  match ev with EvFind _ _ _ | EvGet _ | EvPrint _ => True | _ => False end.
Proof.
  rewrite find_sessions_run.
  pose proof (query_sessions_log s e t) as Hl.
  assert (Hlk : forall u a, In ev (lookup_log u a) -> exists m, ev = EvPrint m).
  { intros u a. unfold lookup_log.
    destruct a as [st [j|]|x]; [| |simpl; intros [<-|[]]; eauto];
      destruct ((400 <=? st) && (st <? 600))%Z; try destruct (st =? 404)%Z;
      simpl; intros H; try contradiction; destruct H as [<-|[]]; eauto. }
  destruct (query_sessions s e t) as [[w0 t0] [x|dirs]]; simpl in Hl; subst w0;
    intros H; injection H as <- _ _; intros Hin.
  - destruct Hin as [<-|[]]. exact I.
  - destruct Hin as [<-|Hin]; [exact I|].
    apply in_flat_map in Hin as [d [_ Hin]]. unfold row_log in Hin.
    apply in_app_or in Hin as [Hin|Hin].
    + destruct (fs_lookup t0 (parse_path d)); [contradiction|].
      destruct Hin as [<-|[]]. exact I.
    + apply in_app_or in Hin as [[<-|Hin]|[<-|Hin]]; try exact I;
        destruct (Hlk _ _ Hin) as [m ->]; exact I.
Qed.

Lemma csv_events_app a b : csv_events (a ++ b)%list = (csv_events a ++ csv_events b)%list.
Proof. unfold csv_events. apply filter_app. Qed.

Lemma csv_events_find sess s e t wf t' r :
  find_sessions_and_metadata sess s e t = (wf, t', r) -> csv_events wf = [].
Proof.
  intros Hf. pose proof (fun ev => find_log_kinds _ _ _ _ _ _ _ ev Hf) as Hk.
  clear Hf. induction wf as [|ev wf IH]; [reflexivity|].
  assert (Hev := Hk ev (or_introl eq_refl)).
  unfold csv_events in *. simpl.
  destruct ev; try contradiction; apply IH; intros ev' H'; apply Hk; right; exact H'.
Qed.

(** Once the credentials load and the enumeration succeeds, the audit
    writes the CSV file at most once: exactly once, with the rows of the
    run in their order, when at least one session was found and the write
    succeeds, and never otherwise. *)
Theorem audit_csv_holds_rows w sa ea t a wf t' rows
  (Hauth : auth_result (auth_file w) = inr a)
  (Hfind : find_sessions_and_metadata (net w a)
             (match sa with Some d => d | None => (today w - 7 * DAY)%Z end)
             (match ea with Some d => d | None => today w end) t = (wf, t', inr rows)) :
  exists evs,
    audit_main w sa ea t = (evs, t', inr tt) /\
    csv_events evs = match rows with
                     | [] => []
                     | _ :: _ => if csv_ok w then [EvCsv CSV_FILENAME rows] else []
                     end.
Proof.
  pose proof (csv_events_find _ _ _ _ _ _ _ Hfind) as Hc.
  unfold audit_main. cbv delta [bind try_with ret] beta iota zeta.
  rewrite read_xnat_auth_run, Hauth. cbv beta iota zeta.
  rewrite Hfind. cbv delta [send_email print emit] beta iota zeta.
  destruct rows as [|r rows];
    [|destruct (csv_ok w), (0 <? num_orphans (r :: rows))%nat];
    destruct (mail_ok w); cbv beta iota;
    (eexists; split; [reflexivity|]);
    rewrite !csv_events_app, Hc; reflexivity.
Qed.

(** ** Examples of the further properties *)


(** A window whose end precedes its start. *)
Lemma empty_window_no_sessions_witness :
  (JAN05 <= JAN25)%Z /\
  query_sessions JAN25 JAN05 demo_archive
  = ([EvFind ["/data/xnat/archive/ProjectA/arc001"] JAN25 JAN05], demo_archive, inr []) /\
  (@nil string) = [].
Proof.
  assert (He : (JAN05 <= JAN25)%Z) by (unfold JAN05, JAN25; lia).
  assert (Hrun : query_sessions JAN25 JAN05 demo_archive
    = ([EvFind ["/data/xnat/archive/ProjectA/arc001"] JAN25 JAN05], demo_archive, inr []))
    by (vm_compute; reflexivity).
  split; [exact He|]. split; [exact Hrun|].
  exact (empty_window_no_sessions _ _ _ _ _ _ He Hrun).
Defined.



(** The demo run over the whole week. *)
Lemma find_sessions_two_gets_per_session_witness :
  find_sessions_and_metadata (demo_net (GetResp 404 None)) JAN05 JAN25 demo_archive
  = (fst (fst (demo_find (GetResp 404 None) JAN05 JAN25)), demo_archive,
     inr (result_rows (demo_find (GetResp 404 None) JAN05 JAN25))) /\
  exists dirs,
    snd (query_sessions JAN05 JAN25 demo_archive) = inr dirs /\
    length (result_rows (demo_find (GetResp 404 None) JAN05 JAN25)) = length dirs /\
    get_urls (fst (fst (demo_find (GetResp 404 None) JAN05 JAN25))) =
    flat_map (fun d => [query_url PRIMARY (row_project d) (row_session d);
                        query_url SECONDARY (row_project d) (row_session d)]) dirs.
Proof.
  assert (Hrun : find_sessions_and_metadata (demo_net (GetResp 404 None)) JAN05 JAN25 demo_archive
    = (fst (fst (demo_find (GetResp 404 None) JAN05 JAN25)), demo_archive,
       inr (result_rows (demo_find (GetResp 404 None) JAN05 JAN25))))
    by (vm_compute; reflexivity).
  split; [exact Hrun|]. exact (find_sessions_two_gets_per_session _ _ _ _ _ _ _ Hrun).
Defined.

(** The demo audit over the whole week: two sessions, one orphan. *)
Lemma audit_sends_one_report_witness :
  auth_result (auth_file (demo_audit (GetResp 404 None))) = inr ("alice", "secret") /\
  find_sessions_and_metadata (demo_net (GetResp 404 None)) JAN05 JAN25 demo_archive
  = (fst (fst (demo_find (GetResp 404 None) JAN05 JAN25)), demo_archive,
     inr (result_rows (demo_find (GetResp 404 None) JAN05 JAN25))) /\
  exists evs,
    audit_main (demo_audit (GetResp 404 None)) (Some JAN05) (Some JAN25) demo_archive
    = (evs, demo_archive, inr tt) /\
    mail_events evs =
    [match result_rows (demo_find (GetResp 404 None) JAN05 JAN25) with
     | [] => EvMail JAN05 JAN25 (MsgNoScans JAN05 JAN25) None
     | _ => EvMail JAN05 JAN25
              (if (0 <? num_orphans (result_rows (demo_find (GetResp 404 None) JAN05 JAN25)))%nat
               then MsgOrphans (num_orphans (result_rows (demo_find (GetResp 404 None) JAN05 JAN25)))
                      (length (result_rows (demo_find (GetResp 404 None) JAN05 JAN25)))
               else MsgNoOrphans (length (result_rows (demo_find (GetResp 404 None) JAN05 JAN25))))
              (Some CSV_FILENAME)
     end].
Proof.
  assert (Ha : auth_result (auth_file (demo_audit (GetResp 404 None))) = inr ("alice", "secret"))
    by reflexivity.
  assert (Hrun : find_sessions_and_metadata (demo_net (GetResp 404 None)) JAN05 JAN25 demo_archive
    = (fst (fst (demo_find (GetResp 404 None) JAN05 JAN25)), demo_archive,
       inr (result_rows (demo_find (GetResp 404 None) JAN05 JAN25))))
    by (vm_compute; reflexivity).
  split; [exact Ha|]. split; [exact Hrun|].
  exact (audit_sends_one_report (demo_audit (GetResp 404 None)) (Some JAN05) (Some JAN25)
           demo_archive _ _ _ _ Ha Hrun).
Defined.

(** The audit of the archive root without projects, with the default
    window. *)
Lemma audit_raises_only_from_find_witness :
  audit_main (demo_audit (GetResp 404 None)) None None demo_empty_archive
  = ([EvFind [GLOB_PATTERN] (JAN25 - 7 * DAY) JAN25], demo_empty_archive,
     inl CalledProcessError) /\
  (exists a, auth_result (auth_file (demo_audit (GetResp 404 None))) = inr a) /\
  query_sessions (JAN25 - 7 * DAY) JAN25 demo_empty_archive
  = ([EvFind [GLOB_PATTERN] (JAN25 - 7 * DAY) JAN25], demo_empty_archive,
     inl CalledProcessError) /\
  demo_empty_archive = demo_empty_archive /\
  [EvFind [GLOB_PATTERN] (JAN25 - 7 * DAY) JAN25]
  = [EvFind (glob_arc001 demo_empty_archive) (JAN25 - 7 * DAY) JAN25].
Proof.
  assert (Hrun : audit_main (demo_audit (GetResp 404 None)) None None demo_empty_archive
    = ([EvFind [GLOB_PATTERN] (JAN25 - 7 * DAY) JAN25], demo_empty_archive,
       inl CalledProcessError)) by (vm_compute; reflexivity).
  split; [exact Hrun|].
  exact (audit_raises_only_from_find _ _ _ _ _ _ _ Hrun).
Defined.

(** Creating [/inbox/P] next to the demo home directory. *)
Lemma makedirs_creates_path_witness :
  makedirs 5 ["inbox"; "P"] demo_local
  = ([EvMakedirs ["inbox"; "P"]], (demo_local ++ [(["inbox"; "P"], Dir 5)])%list, inr tt) /\
  (forall q, In q (prefixes ["inbox"; "P"]) ->
     exists m, fs_lookup (demo_local ++ [(["inbox"; "P"], Dir 5)])%list q = Some (Dir m)) /\
  (forall q n, fs_lookup demo_local q = Some n ->
     fs_lookup (demo_local ++ [(["inbox"; "P"], Dir 5)])%list q = Some n) /\
  (forall q n, fs_lookup demo_local q = None ->
     fs_lookup (demo_local ++ [(["inbox"; "P"], Dir 5)])%list q = Some n ->
     In q (prefixes ["inbox"; "P"]) /\ n = Dir 5).
Proof.
  assert (Hrun : makedirs 5 ["inbox"; "P"] demo_local
    = ([EvMakedirs ["inbox"; "P"]], (demo_local ++ [(["inbox"; "P"], Dir 5)])%list, inr tt))
    by (vm_compute; reflexivity).
  split; [exact Hrun|]. exact (makedirs_creates_path _ _ _ _ _ Hrun).
Defined.

(** Creating [/inbox/P] twice. *)
Lemma makedirs_idempotent_witness :
  makedirs 5 ["inbox"; "P"] demo_local
  = ([EvMakedirs ["inbox"; "P"]], (demo_local ++ [(["inbox"; "P"], Dir 5)])%list, inr tt) /\
  makedirs 9 ["inbox"; "P"] (demo_local ++ [(["inbox"; "P"], Dir 5)])%list
  = ([EvMakedirs ["inbox"; "P"]], (demo_local ++ [(["inbox"; "P"], Dir 5)])%list, inr tt).
Proof.
  assert (Hrun : makedirs 5 ["inbox"; "P"] demo_local
    = ([EvMakedirs ["inbox"; "P"]], (demo_local ++ [(["inbox"; "P"], Dir 5)])%list, inr tt))
    by (vm_compute; reflexivity).
  split; [exact Hrun|]. exact (makedirs_idempotent 5 9 _ _ _ _ Hrun).
Defined.

(** Adopting [/home/E], which does not exist. *)
Lemma adopt_missing_source_witness :
  cred_result (cred_file demo_adopt) = inr ("alice", "secret") /\
  makedirs (now demo_adopt) ["inbox"; "P"] demo_local
  = ([EvMakedirs ["inbox"; "P"]], (demo_local ++ [(["inbox"; "P"], Dir 5)])%list, inr tt) /\
  fs_lookup demo_local ["home"; "E"] = None /\
  ~ In ["home"; "E"] (prefixes ["inbox"; "P"]) /\
  adopt_main demo_adopt ["home"; "E"] "P" "http://localhost:8080/" ["inbox"] demo_local
  = ([EvMakedirs ["inbox"; "P"]; EvPrint MsgMoveError],
     (demo_local ++ [(["inbox"; "P"], Dir 5)])%list, inr tt).
Proof.
  assert (Hc : cred_result (cred_file demo_adopt) = inr ("alice", "secret")) by reflexivity.
  assert (Hm : makedirs (now demo_adopt) ["inbox"; "P"] demo_local
    = ([EvMakedirs ["inbox"; "P"]], (demo_local ++ [(["inbox"; "P"], Dir 5)])%list, inr tt))
    by (vm_compute; reflexivity).
  assert (Hl : fs_lookup demo_local ["home"; "E"] = None) by (vm_compute; reflexivity).
  assert (Hn : ~ In ["home"; "E"] (prefixes ["inbox"; "P"]))
    by (simpl; intros [H|[H|[]]]; discriminate).
  split; [exact Hc|]. split; [exact Hm|]. split; [exact Hl|]. split; [exact Hn|].
  exact (adopt_missing_source demo_adopt ["home"; "E"] "P" "http://localhost:8080/" ["inbox"]
           demo_local _ _ _ Hc Hm Hl Hn).
Defined.

(** C5, witness: adopting [/home/D] when [/inbox/P/D] already exists. *)
Lemma adopt_existing_destination_nests_witness :
  fs_lookup demo_local_taken (dest_inbox_dir ["inbox"] "P" ["home"; "D"]) = Some (Dir 0) /\
  In (EvPrint (MsgMoved (path_str ["home"; "D"])
                        (path_str (dest_inbox_dir ["inbox"] "P" ["home"; "D"]))))
     (fst (fst (demo_adopt_run demo_local_taken))) /\
  (forall s n, fs_lookup demo_local_taken (["home"; "D"] ++ s)%list = Some n ->
     fs_lookup (snd (fst (demo_adopt_run demo_local_taken)))
       (dest_inbox_dir ["inbox"] "P" ["home"; "D"] ++ "D" :: s)%list = Some n) /\
  (forall s, fs_lookup (snd (fst (demo_adopt_run demo_local_taken))) (["home"; "D"] ++ s)%list
             = None) /\
  In (EvMoved ["home"; "D"] (dest_inbox_dir ["inbox"] "P" ["home"; "D"] ++ ["D"])%list)
     (fst (fst (demo_adopt_run demo_local_taken))) /\
  exists c, cred_result (cred_file demo_adopt) = inr c /\
    In (EvPost (import_api_url (rstrip_by is_slash "http://localhost:8080/") "P"
                  (dest_inbox_dir ["inbox"] "P" ["home"; "D"])))
       (fst (fst (demo_adopt_run demo_local_taken))).
Proof.
  assert (Hd : fs_lookup demo_local_taken (dest_inbox_dir ["inbox"] "P" ["home"; "D"])
               = Some (Dir 0)) by (vm_compute; reflexivity).
  assert (Hm : In (EvPrint (MsgMoved (path_str ["home"; "D"])
                                     (path_str (dest_inbox_dir ["inbox"] "P" ["home"; "D"]))))
                  (fst (fst (demo_adopt_run demo_local_taken)))) by in_trace.
  assert (Hrun : adopt_main demo_adopt ["home"; "D"] "P" "http://localhost:8080/" ["inbox"]
                   demo_local_taken
                 = (fst (fst (demo_adopt_run demo_local_taken)),
                    snd (fst (demo_adopt_run demo_local_taken)),
                    snd (demo_adopt_run demo_local_taken))).
  { unfold demo_adopt_run. destruct (adopt_main _ _ _ _ _ _) as [[a b] c]. reflexivity. }
  assert (Hne : ["home"; "D"] <> dest_inbox_dir ["inbox"] "P" ["home"; "D"])
    by (vm_compute; discriminate).
  assert (Habs : forall q n, In (q, n) demo_local_taken ->
            is_prefix (dest_inbox_dir ["inbox"] "P" ["home"; "D"] ++ [last_comp ["home"; "D"]])%list q
            = false).
  { intros q n H. repeat destruct H as [H|H]; try contradiction;
      injection H as <- <-; vm_compute; reflexivity. }
  split; [exact Hd|]. split; [exact Hm|].
  exact (adopt_existing_destination_nests demo_adopt ["home"; "D"] "P" "http://localhost:8080/"
           ["inbox"] demo_local_taken _ _ _ 0 ltac:(discriminate) Hd Hne Habs Hrun Hm).
Defined.


(** [os.makedirs("/inbox/P")] with a file at [/inbox]. *)
Lemma makedirs_fails_on_file_prefix_witness :
  In ["inbox"] (prefixes ["inbox"; "P"]) /\
  fs_lookup [(["home"], Dir 0); (["inbox"], File 0)] ["inbox"] = Some (File 0) /\
  makedirs 5 ["inbox"; "P"] [(["home"], Dir 0); (["inbox"], File 0)]
  = ([EvMakedirs ["inbox"; "P"]], [(["home"], Dir 0); (["inbox"], File 0)],
     inl (OSError "makedirs")).
Proof.
  assert (Hq : In ["inbox"] (prefixes ["inbox"; "P"])) by (vm_compute; auto).
  assert (Hf : fs_lookup [(["home"], Dir 0); (["inbox"], File 0)] ["inbox"] = Some (File 0))
    by reflexivity.
  split; [exact Hq|]. split; [exact Hf|].
  exact (makedirs_fails_on_file_prefix 5 _ _ _ _ Hq Hf).
Defined.

(** The adoption with a file at [/inbox]. *)
Lemma adopt_raises_only_from_makedirs_witness :
  adopt_main demo_adopt ["home"; "D"] "P" "http://localhost:8080/" ["inbox"]
    [(["home"], Dir 0); (["home"; "D"], Dir 1); (["inbox"], File 0)]
  = ([EvMakedirs ["inbox"; "P"]], [(["home"], Dir 0); (["home"; "D"], Dir 1); (["inbox"], File 0)],
     inl (OSError "makedirs")) /\
  (exists c, cred_result (cred_file demo_adopt) = inr c) /\
  makedirs (now demo_adopt) (["inbox"] ++ ["P"])%list
    [(["home"], Dir 0); (["home"; "D"], Dir 1); (["inbox"], File 0)]
  = ([EvMakedirs ["inbox"; "P"]], [(["home"], Dir 0); (["home"; "D"], Dir 1); (["inbox"], File 0)],
     inl (OSError "makedirs")) /\
  [EvMakedirs ["inbox"; "P"]] = [EvMakedirs (["inbox"] ++ ["P"])%list].
Proof.
  assert (Hrun : adopt_main demo_adopt ["home"; "D"] "P" "http://localhost:8080/" ["inbox"]
                   [(["home"], Dir 0); (["home"; "D"], Dir 1); (["inbox"], File 0)]
    = ([EvMakedirs ["inbox"; "P"]], [(["home"], Dir 0); (["home"; "D"], Dir 1); (["inbox"], File 0)],
       inl (OSError "makedirs"))) by (vm_compute; reflexivity).
  split; [exact Hrun|].
  exact (adopt_raises_only_from_makedirs _ _ _ _ _ _ _ _ _ Hrun).
Defined.

(** [--xnat-url http://localhost:8080//]. *)
Lemma adopt_url_trailing_slashes_witness :
  all_by is_slash "//" = true /\
  adopt_main demo_adopt ["home"; "D"] "P" ("http://localhost:8080" ++ "//") ["inbox"] demo_local
  = adopt_main demo_adopt ["home"; "D"] "P" "http://localhost:8080" ["inbox"] demo_local.
Proof.
  assert (H : all_by is_slash "//" = true) by reflexivity.
  split; [exact H|]. exact (adopt_url_trailing_slashes _ _ _ _ _ _ _ H).
Defined.

(** The CSV of the demo audit over the whole week. *)
Lemma audit_csv_holds_rows_witness :
  auth_result (auth_file (demo_audit (GetResp 404 None))) = inr ("alice", "secret") /\
  find_sessions_and_metadata (demo_net (GetResp 404 None)) JAN05 JAN25 demo_archive
  = (fst (fst (demo_find (GetResp 404 None) JAN05 JAN25)), demo_archive,
     inr (result_rows (demo_find (GetResp 404 None) JAN05 JAN25))) /\
  exists evs,
    audit_main (demo_audit (GetResp 404 None)) (Some JAN05) (Some JAN25) demo_archive
    = (evs, demo_archive, inr tt) /\
    csv_events evs
    = match result_rows (demo_find (GetResp 404 None) JAN05 JAN25) with
      | [] => []
      | _ :: _ => if csv_ok (demo_audit (GetResp 404 None))
                  then [EvCsv CSV_FILENAME (result_rows (demo_find (GetResp 404 None) JAN05 JAN25))]
                  else []
      end.
Proof.
  assert (Ha : auth_result (auth_file (demo_audit (GetResp 404 None))) = inr ("alice", "secret"))
    by reflexivity.
  assert (Hrun : find_sessions_and_metadata (demo_net (GetResp 404 None)) JAN05 JAN25 demo_archive
    = (fst (fst (demo_find (GetResp 404 None) JAN05 JAN25)), demo_archive,
       inr (result_rows (demo_find (GetResp 404 None) JAN05 JAN25))))
    by (vm_compute; reflexivity).
  split; [exact Ha|]. split; [exact Hrun|].
  exact (audit_csv_holds_rows (demo_audit (GetResp 404 None)) (Some JAN05) (Some JAN25)
           demo_archive _ _ _ _ Ha Hrun).
Defined.
